(** * askmi-api: the authorization layer, embedded in Rocq

    A shallow embedding of the role/permission registry
    ([src/types/permissions.ts]), the permission helpers
    ([src/utils/permissions.ts]), the token service
    ([src/services/jwtService.ts]) and the Express middleware
    ([src/middleware/authMiddleware.ts]), followed by the properties that
    the design document states about them.

    TypeScript types are erased at run time: a [Permission] or a [UserRole]
    is a JavaScript string, and [role as UserRole] is a cast that checks
    nothing.  The embedding therefore keeps both as [string] and gives the
    enum members as named constants. *)

From Stdlib Require Import String Ascii.
From stdpp Require Import base option list strings gmap.

Local Open Scope string_scope.
Local Open Scope list_scope.

Set Warnings "-register-all".

(** ** JavaScript run-time notions used by the code *)

Module Js.

(** Exceptions that escape an expression. *)
Inductive exn : Type :=
| TypeError (what : string)
| LibraryError (what : string).

(** A computation that returns or throws. *)
Inductive result (A : Type) : Type :=
| Ok (a : A)
| Throw (e : exn).
Arguments Ok {A} a.
Arguments Throw {A} e.

Definition bind {A B} (m : result A) (k : A -> result B) : result B :=
  match m with
  | Ok a => k a
  | Throw e => Throw e
  end.

(** [try { body } catch (error) { handler }] *)
Definition try_catch {A} (body : result A) (handler : exn -> A) : A :=
  match body with
  | Ok a => a
  | Throw e => handler e
  end.

(** Values of unknown static type ([any]): what [req.params[k]] and
    [req.body[k]] evaluate to.  Numbers matter here only through their
    truthiness and their [typeof], so an integer payload is enough. *)
Inductive value : Type :=
| VUndefined
| VNull
| VBool (b : bool)
| VNum (n : Z)
| VStr (s : string)
| VArr (items : list value)
| VObj (fields : list (string * value)).

(** ToBoolean on a string: only the empty string is falsy. *)
Definition truthy_string (s : string) : bool :=
  match s with
  | EmptyString => false
  | String _ _ => true
  end.

(** ToBoolean on [string | undefined]. *)
Definition truthy_opt_string (o : option string) : bool :=
  match o with
  | None => false
  | Some s => truthy_string s
  end.

(** ToBoolean on an arbitrary value. *)
Definition truthy (v : value) : bool :=
  match v with
  | VUndefined | VNull => false
  | VBool b => b
  | VNum n => negb (Z.eqb n 0)
  | VStr s => truthy_string s
  | VArr _ | VObj _ => true
  end.

(** [Array.isArray(v) ? v[0] : v] *)
Definition first_if_array (v : value) : value :=
  match v with
  | VArr [] => VUndefined
  | VArr (x :: _) => x
  | _ => v
  end.

(** [typeof v === 'string'], returning the string when it is one. *)
Definition as_string (v : value) : option string :=
  match v with
  | VStr s => Some s
  | _ => None
  end.

(** [s.includes(sub)] on strings. *)
Fixpoint includes (s sub : string) : bool :=
  String.prefix sub s ||
  match s with
  | EmptyString => false
  | String _ s' => includes s' sub
  end.

(** [arr.includes(x)] on an array of strings. *)
Definition array_includes (arr : list string) (x : string) : bool :=
  bool_decide (x ∈ arr).

(** [s.split(sep)] for a one-character separator. *)
Fixpoint split (sep : ascii) (s : string) : list string :=
  match s with
  | EmptyString => [EmptyString]
  | String c s' =>
      if Ascii.eqb c sep then EmptyString :: split sep s'
      else match split sep s' with
           | [] => [String c EmptyString]
           | w :: ws => String c w :: ws
           end
  end.

(** The property names every object literal inherits from
    [Object.prototype].  Each of them reads as a function, except
    [__proto__], which reads as the prototype object itself; all of them
    are truthy and none of them has an [includes] method. *)
Definition object_prototype_keys : list string :=
  [ "constructor"; "__defineGetter__"; "__defineSetter__";
    "hasOwnProperty"; "__lookupGetter__"; "__lookupSetter__";
    "isPrototypeOf"; "propertyIsEnumerable"; "toString"; "valueOf";
    "__proto__"; "toLocaleString" ].

(** What [obj[key]] evaluates to on an object literal whose own
    properties all have type [A]. *)
Inductive property (A : Type) : Type :=
| Own (a : A)
| Inherited (name : string)
| Missing.
Arguments Own {A} a.
Arguments Inherited {A} name.
Arguments Missing {A}.

Fixpoint own_property {A} (fields : list (string * A)) (key : string)
  : option A :=
  match fields with
  | [] => None
  | (k, a) :: rest =>
      if String.eqb k key then Some a else own_property rest key
  end.

(** [obj[key]]: own properties first, then the prototype chain. *)
Definition get {A} (fields : list (string * A)) (key : string)
  : property A :=
  match own_property fields key with
  | Some a => Own a
  | None =>
      if array_includes object_prototype_keys key then Inherited key
      else Missing
  end.

End Js.

Import Js.

(** ** src/types/permissions.ts *)

Module Permission.
Definition t := string.
Definition USERS_READ_OWN : t := "users:read:own".
Definition USERS_WRITE_OWN : t := "users:write:own".
Definition USERS_READ_ALL : t := "users:read:all".
Definition USERS_WRITE_ALL : t := "users:write:all".
Definition USERS_DELETE_ALL : t := "users:delete:all".
Definition CONTENT_CREATE_OWN : t := "content:create:own".
Definition CONTENT_WRITE_OWN : t := "content:write:own".
Definition CONTENT_DELETE_OWN : t := "content:delete:own".
Definition CONTENT_READ_ALL : t := "content:read:all".
Definition CONTENT_WRITE_ALL : t := "content:write:all".
Definition CONTENT_DELETE_ALL : t := "content:delete:all".
Definition SETTINGS_MANAGE : t := "settings:manage".
Definition ANALYTICS_VIEW : t := "analytics:view".
End Permission.

Module UserRole.
Definition USER : string := "user".
Definition ADMIN : string := "admin".
Definition INFLUENCER : string := "influencer".
End UserRole.

Definition admin_permissions : list Permission.t :=
  [ Permission.USERS_READ_OWN; Permission.USERS_WRITE_OWN;
    Permission.USERS_READ_ALL; Permission.USERS_WRITE_ALL;
    Permission.USERS_DELETE_ALL; Permission.CONTENT_CREATE_OWN;
    Permission.CONTENT_WRITE_OWN; Permission.CONTENT_DELETE_OWN;
    Permission.CONTENT_READ_ALL; Permission.CONTENT_WRITE_ALL;
    Permission.CONTENT_DELETE_ALL; Permission.SETTINGS_MANAGE;
    Permission.ANALYTICS_VIEW ].

Definition influencer_permissions : list Permission.t :=
  [ Permission.USERS_READ_OWN; Permission.USERS_WRITE_OWN;
    Permission.CONTENT_CREATE_OWN; Permission.CONTENT_WRITE_OWN;
    Permission.CONTENT_DELETE_OWN; Permission.CONTENT_READ_ALL ].

Definition user_permissions : list Permission.t :=
  [ Permission.USERS_READ_OWN; Permission.USERS_WRITE_OWN;
    Permission.CONTENT_CREATE_OWN; Permission.CONTENT_WRITE_OWN;
    Permission.CONTENT_DELETE_OWN; Permission.CONTENT_READ_ALL ].

(** The object literal [ROLE_PERMISSIONS], own properties in source
    order. *)
Definition ROLE_PERMISSIONS : list (string * list Permission.t) :=
  [ (UserRole.ADMIN, admin_permissions);
    (UserRole.INFLUENCER, influencer_permissions);
    (UserRole.USER, user_permissions) ].

(** [roleHasPermission(role, permission)].  The guard
    [!ROLE_PERMISSIONS[userRole]] stops only on [undefined]; an inherited
    property passes it, and the call of its missing [includes] method
    throws. *)
Definition roleHasPermission (role : string) (permission : Permission.t)
  : result bool :=
  match get ROLE_PERMISSIONS role with
  | Missing => Ok false
  | Own perms => Ok (array_includes perms permission)
  | Inherited name =>
      Throw (TypeError "ROLE_PERMISSIONS[userRole].includes is not a function")
  end.

(** [isAdmin(role)] *)
Definition isAdmin (role : string) : bool :=
  String.eqb role UserRole.ADMIN.

(** ** src/utils/permissions.ts *)

Record User : Type := mkUser {
  userId : string;
  email : string;
  role : string
}.

(** [interface Resource { ownerId?: string; [key: string]: any }]: the
    helpers read [ownerId] only. *)
Record Resource : Type := mkResource {
  ownerId : option string
}.

(** The body of [canAccessResource], with the registry call it makes
    named [lookup]. *)
Definition canAccessResource_with
    (lookup : string -> Permission.t -> result bool)
    (user : User) (resource : option Resource) (action : Permission.t)
  : result bool :=
  if isAdmin (role user) then Ok true
  else
    bind (lookup (role user) action) (fun held =>
    if negb held then Ok false
    else if includes action ":own" then
      match resource with
      | None => Ok false
      | Some r =>
          match ownerId r with
          | None => Ok false
          | Some o =>
              if negb (truthy_string o) then Ok false
              else Ok (String.eqb o (userId user))
          end
      end
    else Ok true).

(** [canAccessResource(user, resource, action)] *)
Definition canAccessResource (user : User) (resource : option Resource)
    (action : Permission.t) : result bool :=
  canAccessResource_with roleHasPermission user resource action.

(** [isResourceOwner(userId, resourceOwnerId)] *)
Definition isResourceOwner (uid : string) (resourceOwnerId : option string)
  : bool :=
  match resourceOwnerId with
  | None => false
  | Some o => if negb (truthy_string o) then false else String.eqb uid o
  end.

(** [hasRole(user, ...roles)] *)
Definition hasRole (user : User) (roles : list string) : bool :=
  array_includes roles (role user).

(** [canAccessResourceOrOwn(user, resource, ownAction, allAction)] *)
Definition canAccessResourceOrOwn (user : User) (resource : option Resource)
    (ownAction allAction : Permission.t) : result bool :=
  if isAdmin (role user) then Ok true
  else
    let owned :=
      match resource with
      | None => false
      | Some r =>
          truthy_opt_string (ownerId r)
          && isResourceOwner (userId user) (ownerId r)
      end in
    if owned then roleHasPermission (role user) ownAction
    else roleHasPermission (role user) allAction.

(** The value [getRolePermissions] returns: an array of permissions, or
    whatever inherited property the lookup found. *)
Inductive permissions_or_inherited : Type :=
| PermissionArray (perms : list Permission.t)
| InheritedProperty (name : string).

(** [getRolePermissions(role)]: [permissions[userRole] || []] over its
    local object literal. *)
Definition getRolePermissions (role : string) : permissions_or_inherited :=
  let permissions :=
    [ (UserRole.ADMIN, admin_permissions);
      (UserRole.INFLUENCER, influencer_permissions);
      (UserRole.USER, user_permissions) ] in
  match get permissions role with
  | Own perms => PermissionArray perms
  | Inherited name => InheritedProperty name
  | Missing => PermissionArray []
  end.

(** ** src/services/jwtService.ts *)

Module JWTPayload.
Record t : Type := mk {
  userId : string;
  email : string;
  role : string
}.
End JWTPayload.

(** [UserWithoutPassword] of [src/services/userService.ts]; dates are
    time stamps. *)
Module UserWithoutPassword.
Record t : Type := mk {
  id : string;
  email : string;
  phoneNumber : option string;
  company : option string;
  fullName : string;
  role : string;
  createdAt : N;
  updatedAt : N
}.
End UserWithoutPassword.

(** The [jsonwebtoken] package is an external dependency.  The service
    uses two of its entry points, [jwt.sign(payload, secret, {expiresIn})]
    and [jwt.verify(token, secret)]; both read the wall clock, which is an
    explicit argument here (seconds).  [Lib] is the interface; [Lawful]
    records what the package documents about it: with a secret that is
    not empty, signing succeeds when [expiresIn] is a valid time span,
    and a token verifies under the secret it was signed with, to the
    signed payload with [iat] and [exp] added, as long as the clock is
    before [exp]. *)
Module Jwt.

Record Decoded : Type := mkDecoded {
  claims : JWTPayload.t;
  iat : N;
  exp : N
}.

Class Lib : Type := {
  sign : JWTPayload.t -> string -> string -> N -> result string;
  verify : string -> string -> N -> result Decoded;
  timespan : string -> option N
}.

Record Lawful (L : Lib) : Prop := {
  sign_timespan : forall payload secret expiresIn now d,
    secret <> EmptyString ->
    timespan expiresIn = Some d ->
    exists token, sign payload secret expiresIn now = Ok token;
  verify_sign : forall payload secret expiresIn now d token later,
    secret <> EmptyString ->
    timespan expiresIn = Some d ->
    sign payload secret expiresIn now = Ok token ->
    (later < now + d)%N ->
    verify token secret later = Ok (mkDecoded payload now (now + d))
}.

End Jwt.

(** [process.env], as far as the service reads it. *)
Record ProcessEnv : Type := mkEnv {
  JWT_SECRET : option string;
  JWT_EXPIRES_IN : option string
}.

Record JWTService : Type := mkJWTService {
  secret : string;
  expiresIn : string
}.

(** [process.env.X || fallback] *)
Definition env_or (x : option string) (fallback : string) : string :=
  match x with
  | Some s => if truthy_string s then s else fallback
  | None => fallback
  end.

(** [new JWTService()] *)
Definition new_JWTService (env : ProcessEnv) : JWTService :=
  {| secret := env_or (JWT_SECRET env) "your-secret-key-change-in-production";
     expiresIn := env_or (JWT_EXPIRES_IN env) "7d" |}.

Section TokenService.
Context `{jwt : Jwt.Lib}.

(** [generateToken(user)], at clock [now]. *)
Definition generateToken (this : JWTService) (now : N)
    (user : UserWithoutPassword.t) : result string :=
  let payload :=
    {| JWTPayload.userId := UserWithoutPassword.id user;
       JWTPayload.email := UserWithoutPassword.email user;
       JWTPayload.role := UserWithoutPassword.role user |} in
  Jwt.sign payload (secret this) (expiresIn this) now.

(** [verifyToken(token)], at clock [now]: any exception of [jwt.verify]
    becomes [null]. *)
Definition verifyToken (this : JWTService) (now : N) (token : string)
  : option Jwt.Decoded :=
  try_catch
    (bind (Jwt.verify token (secret this) now) (fun decoded =>
     Ok (Some decoded)))
    (fun error => None).

End TokenService.

(** A small executable instance of the interface, used to run the service:
    the token lists the three claims and the two time stamps, each
    character guarded by [x] and each field closed by a dot, followed by a
    keyed digest of that text.  The digest function is arbitrary. *)
Module ToyJwt.

Fixpoint enc_field (s : string) : string :=
  match s with
  | EmptyString => "."
  | String c s' => String "x" (String c (enc_field s'))
  end.

Fixpoint dec_field (t : string) : option (string * string) :=
  match t with
  | String a rest =>
      if Ascii.eqb a "." then Some (EmptyString, rest)
      else if Ascii.eqb a "x" then
        match rest with
        | String c t' =>
            match dec_field t' with
            | Some (s, rest') => Some (String c s, rest')
            | None => None
            end
        | EmptyString => None
        end
      else None
  | EmptyString => None
  end.

(** Binary numerals, least significant digit first. *)
Fixpoint enc_pos (p : positive) : string :=
  match p with
  | xH => "h"
  | xO p' => String "o" (enc_pos p')
  | xI p' => String "i" (enc_pos p')
  end.

Fixpoint dec_pos (t : string) : option positive :=
  match t with
  | EmptyString => None
  | String c rest =>
      if Ascii.eqb c "h" then
        match rest with
        | EmptyString => Some xH
        | String _ _ => None
        end
      else if Ascii.eqb c "o" then xO <$> dec_pos rest
      else if Ascii.eqb c "i" then xI <$> dec_pos rest
      else None
  end.

Definition enc_num (n : N) : string :=
  match n with
  | N0 => EmptyString
  | Npos p => enc_pos p
  end.

Definition dec_num (t : string) : option N :=
  match t with
  | EmptyString => Some N0
  | String _ _ => Npos <$> dec_pos t
  end.

Definition enc_body (p : JWTPayload.t) (iat exp : N) : string :=
  enc_field (JWTPayload.userId p) +:+ enc_field (JWTPayload.email p)
  +:+ enc_field (JWTPayload.role p) +:+ enc_field (enc_num iat)
  +:+ enc_field (enc_num exp).

Definition dec_body (t : string) : option (Jwt.Decoded * string) :=
  '(u, t1) ← dec_field t;
  '(e, t2) ← dec_field t1;
  '(r, t3) ← dec_field t2;
  '(i, t4) ← dec_field t3;
  '(x, t5) ← dec_field t4;
  iat ← dec_num i;
  exp ← dec_num x;
  Some (Jwt.mkDecoded (JWTPayload.mk u e r) iat exp, t5).

(** Only a few spellings of a time span are understood, among them the
    service's default. *)
Definition timespan (e : string) : option N :=
  if String.eqb e "7d" then Some 604800%N
  else if String.eqb e "1h" then Some 3600%N
  else if String.eqb e "60s" then Some 60%N
  else None.

Section Digest.
Variable digest : string -> string -> string.

Definition sign (p : JWTPayload.t) (secret expiresIn : string) (now : N)
  : result string :=
  match timespan expiresIn with
  | None => Throw (LibraryError "invalid expiresIn")
  | Some d =>
      let body := enc_body p now (now + d)%N in
      Ok (body +:+ digest secret body)
  end.

Definition verify (token secret : string) (now : N)
  : result Jwt.Decoded :=
  match dec_body token with
  | None => Throw (LibraryError "jwt malformed")
  | Some (decoded, signature) =>
      let body :=
        enc_body (Jwt.claims decoded) (Jwt.iat decoded) (Jwt.exp decoded) in
      if negb (String.eqb signature (digest secret body)) then
        Throw (LibraryError "invalid signature")
      else if (Jwt.exp decoded <=? now)%N then
        Throw (LibraryError "jwt expired")
      else Ok decoded
  end.

Definition lib : Jwt.Lib :=
  {| Jwt.sign := sign;
     Jwt.verify := verify;
     Jwt.timespan := timespan |}.

End Digest.
End ToyJwt.

(** ** src/middleware/authMiddleware.ts *)

(** [res.status(code).json({ success, message })] *)
Record Response : Type := mkResponse {
  status : nat;
  success : bool;
  message : string
}.

(** The parts of an Express request the middleware reads or writes.
    [params k] is the value of [req.params[k]].  [body] is [req.body]:
    [None] when it is [undefined], as it is when no body was parsed,
    and otherwise the function that gives [req.body[k]]. *)
Record Request : Type := mkRequest {
  authorization : option string;
  user : option User;
  params : string -> value;
  body : option (string -> value)
}.

(** [req.body[k]]: reading a property of [undefined] throws. *)
Definition body_property (req : Request) (k : string) : result value :=
  match body req with
  | Some b => Ok (b k)
  | None =>
      Throw (TypeError "Cannot read properties of undefined")
  end.

(** [req.params[k] || req.body[k]]: the body is read only when the route
    parameter is falsy. *)
Definition param_or_body (req : Request) (k : string) : result value :=
  if truthy (params req k) then Ok (params req k)
  else body_property req k.

Definition set_user (req : Request) (u : User) : Request :=
  {| authorization := authorization req;
     user := Some u;
     params := params req;
     body := body req |}.

(** A middleware either calls [next()], handing the request on, or ends
    the exchange with a response. *)
Inductive Outcome : Type :=
| Next (req : Request)
| Respond (res : Response).

Definition Middleware : Type := Request -> Outcome.

(** Express runs the handlers of a route in order and stops at the first
    one that responds. *)
Definition and_then (first second : Middleware) : Middleware :=
  fun req =>
    match first req with
    | Next req' => second req'
    | Respond res => Respond res
    end.

(** The same when the second handler may throw: its exception leaves the
    chain. *)
Definition and_then_throwing (first : Middleware)
    (second : Request -> result Outcome) : Request -> result Outcome :=
  fun req =>
    match first req with
    | Next req' => second req'
    | Respond res => Ok (Respond res)
    end.

Definition reject (code : nat) (msg : string) : Outcome :=
  Respond {| status := code; success := false; message := msg |}.

(** The row [prisma.user.findUnique] selects: [id], [email], [role],
    [isApproved]. *)
Module UserRow.
Record t : Type := mk {
  id : string;
  email : string;
  role : string;
  isApproved : bool
}.
End UserRow.

(** The user table behind the Prisma client, and whether the database
    answers at all. *)
Record Prisma : Type := mkPrisma {
  users : list UserRow.t;
  reachable : bool
}.

(** [prisma.user.findUnique({ where: { id } })] *)
Definition findUnique (prisma : Prisma) (id : string)
  : result (option UserRow.t) :=
  if reachable prisma then
    Ok (find (fun row => String.eqb (UserRow.id row) id) (users prisma))
  else Throw (LibraryError "database unreachable").

(** [prisma.user.update({ where: { id }, data: { isApproved: true } })],
    the write of the approve-influencer route in [src/routes/user.ts]. *)
Definition approve (prisma : Prisma) (id : string) : Prisma :=
  {| users :=
       map (fun row =>
              if String.eqb (UserRow.id row) id then
                {| UserRow.id := UserRow.id row;
                   UserRow.email := UserRow.email row;
                   UserRow.role := UserRow.role row;
                   UserRow.isApproved := true |}
              else row) (users prisma);
     reachable := reachable prisma |}.

Definition MSG_NO_TOKEN : string :=
  "No token provided. Authorization header is required.".
Definition MSG_INVALID_FORMAT : string :=
  "Invalid token format. Use: Bearer <token>".
Definition MSG_INVALID_TOKEN : string := "Invalid or expired token".
Definition MSG_USER_NOT_FOUND : string := "User not found".
Definition MSG_PENDING_APPROVAL : string :=
  "Your account is pending approval. Please wait for an admin to approve your account.".
Definition MSG_AUTH_FAILED : string := "Authentication failed".
Definition MSG_AUTH_REQUIRED : string := "Authentication required".
Definition MSG_RESOURCE_ID_REQUIRED : string := "Resource ID is required".
Definition MSG_NOT_OWNER : string :=
  "You do not have permission to access this resource".

Section Middleware.

(** [jwtService.verifyToken] at the time of the request. *)
Variable verifyToken : string -> option Jwt.Decoded.

(** [authenticate(req, res, next)], the approval-aware version. *)
Definition authenticate (prisma : Prisma) : Middleware :=
  fun req =>
  try_catch
    (match authorization req with
     | None => Ok (reject 401 MSG_NO_TOKEN)
     | Some authHeader =>
         if negb (truthy_string authHeader) then
           Ok (reject 401 MSG_NO_TOKEN)
         else
           match split " " authHeader with
           | [scheme; token] =>
               if negb (String.eqb scheme "Bearer") then
                 Ok (reject 401 MSG_INVALID_FORMAT)
               else
                 match verifyToken token with
                 | None => Ok (reject 401 MSG_INVALID_TOKEN)
                 | Some decoded =>
                     bind (findUnique prisma
                             (JWTPayload.userId (Jwt.claims decoded)))
                       (fun found =>
                        match found with
                        | None => Ok (reject 401 MSG_USER_NOT_FOUND)
                        | Some row =>
                            if String.eqb (UserRow.role row) "influencer"
                               && negb (UserRow.isApproved row)
                            then Ok (reject 403 MSG_PENDING_APPROVAL)
                            else
                              Ok (Next (set_user req
                                          {| userId := UserRow.id row;
                                             email := UserRow.email row;
                                             role := UserRow.role row |}))
                        end)
                 end
           | _ => Ok (reject 401 MSG_INVALID_FORMAT)
           end
     end)
    (fun error => reject 401 MSG_AUTH_FAILED).

(** [optionalAuth(req, res, next)] *)
Definition optionalAuth : Middleware :=
  fun req =>
    match authorization req with
    | None => Next req
    | Some authHeader =>
        if negb (truthy_string authHeader) then Next req
        else
          match split " " authHeader with
          | [scheme; token] =>
              if String.eqb scheme "Bearer" then
                match verifyToken token with
                | Some decoded =>
                    Next (set_user req
                            {| userId := JWTPayload.userId (Jwt.claims decoded);
                               email := JWTPayload.email (Jwt.claims decoded);
                               role := JWTPayload.role (Jwt.claims decoded) |})
                | None => Next req
                end
              else Next req
          | _ => Next req
          end
    end.

End Middleware.

(** [authorize(...roles)] *)
Definition authorize (roles : list string) : Middleware :=
  fun req =>
    match user req with
    | None => reject 401 MSG_AUTH_REQUIRED
    | Some u =>
        if negb (array_includes roles (role u)) then
          reject 403
            ("Insufficient permissions. Required roles: "
             +:+ String.concat ", " roles)
        else Next req
    end.

(** [requirePermission(permission)] *)
Definition requirePermission (permission : Permission.t)
  : Request -> result Outcome :=
  fun req =>
    match user req with
    | None => Ok (reject 401 MSG_AUTH_REQUIRED)
    | Some u =>
        if isAdmin (role u) then Ok (Next req)
        else
          bind (roleHasPermission (role u) permission) (fun held =>
          if negb held then
            Ok (reject 403
                  ("Insufficient permissions. Required permission: "
                   +:+ permission))
          else Ok (Next req))
    end.

(** [requireOwnershipOrRole(resourceIdParam = 'id', ...allowedRoles)];
    [None] stands for an omitted first argument. *)
Definition requireOwnershipOrRole (resourceIdParam : option string)
    (allowedRoles : list string) : Request -> result Outcome :=
  let resourceIdParam := default "id" resourceIdParam in
  fun req =>
    match user req with
    | None => Ok (reject 401 MSG_AUTH_REQUIRED)
    | Some u =>
        if isAdmin (role u) then Ok (Next req)
        else if (0 <? List.length allowedRoles)%nat
                && array_includes allowedRoles (role u) then Ok (Next req)
        else
          bind (param_or_body req resourceIdParam) (fun paramValue =>
          let resourceId := first_if_array paramValue in
          match as_string resourceId with
          | None => Ok (reject 400 MSG_RESOURCE_ID_REQUIRED)
          | Some rid =>
              if negb (truthy_string rid) then
                Ok (reject 400 MSG_RESOURCE_ID_REQUIRED)
              else if String.eqb rid (userId u) then Ok (Next req)
              else Ok (reject 403 MSG_NOT_OWNER)
          end)
    end.

(** [requireAnyRole(...roles)] *)
Definition requireAnyRole (roles : list string) : Middleware :=
  fun req =>
    match user req with
    | None => reject 401 MSG_AUTH_REQUIRED
    | Some u =>
        if isAdmin (role u) then Next req
        else if negb (array_includes roles (role u)) then
          reject 403
            ("Insufficient permissions. Required one of: "
             +:+ String.concat ", " roles)
        else Next req
    end.

(** [requireAllRoles(...roles)] *)
Definition requireAllRoles (roles : list string) : Middleware :=
  fun req =>
    match user req with
    | None => reject 401 MSG_AUTH_REQUIRED
    | Some u =>
        if isAdmin (role u) then Next req
        else if negb (array_includes roles (role u)) then
          reject 403
            ("Insufficient permissions. Required all of: "
             +:+ String.concat ", " roles)
        else Next req
    end.

(** Whether a middleware let the request through. *)
Definition passes (o : Outcome) : bool :=
  match o with
  | Next _ => true
  | Respond _ => false
  end.

(** ** Derived notions *)

(** The members of [Permission] are spelled [<resource>:<action>:<scope>];
    the scope of a permission is its last colon-separated component. *)
Inductive Scope : Type := ScopeOwn | ScopeAll.

Definition scope (p : Permission.t) : option Scope :=
  match last (split ":" p) with
  | Some "own" => Some ScopeOwn
  | Some "all" => Some ScopeAll
  | _ => None
  end.

Definition enumerated_roles : list string :=
  [UserRole.USER; UserRole.ADMIN; UserRole.INFLUENCER].

(** Whether a string is free of a given character. *)
Fixpoint free_of (c : ascii) (s : string) : bool :=
  match s with
  | EmptyString => true
  | String a s' => negb (Ascii.eqb a c) && free_of c s'
  end.

(** The identifier [requireOwnershipOrRole] compares with the user id,
    when it can be read. *)
Definition extracted_resource_id (resourceIdParam : option string)
    (req : Request) : result value :=
  let key := default "id" resourceIdParam in
  bind (param_or_body req key) (fun paramValue =>
  Ok (first_if_array paramValue)).

(** ** src/middleware/authMiddleware.ts, first version of [authenticate] *)

(** The file opens with an earlier [authenticate], which does not read the
    store and attaches the claims of the token. *)
Definition authenticate_token_only
    (verifyToken : string -> option Jwt.Decoded) : Middleware :=
  fun req =>
  try_catch
    (match authorization req with
     | None => Ok (reject 401 MSG_NO_TOKEN)
     | Some authHeader =>
         if negb (truthy_string authHeader) then
           Ok (reject 401 MSG_NO_TOKEN)
         else
           match split " " authHeader with
           | [scheme; token] =>
               if negb (String.eqb scheme "Bearer") then
                 Ok (reject 401 MSG_INVALID_FORMAT)
               else
                 match verifyToken token with
                 | None => Ok (reject 401 MSG_INVALID_TOKEN)
                 | Some decoded =>
                     Ok (Next (set_user req
                                 {| userId :=
                                      JWTPayload.userId (Jwt.claims decoded);
                                    email :=
                                      JWTPayload.email (Jwt.claims decoded);
                                    role :=
                                      JWTPayload.role (Jwt.claims decoded) |}))
                 end
           | _ => Ok (reject 401 MSG_INVALID_FORMAT)
           end
     end)
    (fun error => reject 401 MSG_AUTH_FAILED).

(** ** src/routes/user.ts *)

(** What a route handler sends: status, [success], [message] and, where
    the handler adds one, the [user] object, seen through the columns the
    store model keeps. *)
Record Reply : Type := mkReply {
  reply_status : nat;
  reply_success : bool;
  reply_message : string;
  reply_user : option UserRow.t
}.

Definition failure (code : nat) (msg : string) : Reply :=
  {| reply_status := code; reply_success := false; reply_message := msg;
     reply_user := None |}.

(** [Array.isArray(req.params.id) ? req.params.id[0] : req.params.id],
    handed to Prisma as [where: { id }]; Prisma refuses an [id] that is
    not a string. *)
Definition where_id (req : Request) : result string :=
  match as_string (first_if_array (params req "id")) with
  | Some id => Ok id
  | None => Throw (LibraryError "invalid where argument")
  end.

(** [prisma.user.delete({ where: { id } })] *)
Definition delete_user (prisma : Prisma) (id : string) : Prisma :=
  {| users :=
       List.filter (fun row => negb (String.eqb (UserRow.id row) id))
         (users prisma);
     reachable := reachable prisma |}.

Definition approved (row : UserRow.t) : UserRow.t :=
  {| UserRow.id := UserRow.id row;
     UserRow.email := UserRow.email row;
     UserRow.role := UserRow.role row;
     UserRow.isApproved := true |}.

(** The handler of [POST /admin/approve-influencer/:id]: the store after
    the request and the reply. *)
Definition approve_influencer_handler (prisma : Prisma) (req : Request)
  : Prisma * Reply :=
  try_catch
    (bind (where_id req) (fun userId =>
     bind (findUnique prisma userId) (fun found =>
     match found with
     | None => Ok (prisma, failure 404 "User not found")
     | Some row =>
         if negb (String.eqb (UserRow.role row) "influencer") then
           Ok (prisma, failure 400 "User is not an influencer")
         else if UserRow.isApproved row then
           Ok (prisma, failure 400 "Influencer is already approved")
         else
           Ok (approve prisma userId,
               {| reply_status := 200;
                  reply_success := true;
                  reply_message := "Influencer approved successfully";
                  reply_user := Some (approved row) |})
     end)))
    (fun error =>
       (prisma, failure 500 "An error occurred while approving influencer")).

(** The handler of [DELETE /:id]. *)
Definition delete_user_handler (prisma : Prisma) (req : Request)
  : Prisma * Reply :=
  try_catch
    (bind (where_id req) (fun userId =>
     bind (findUnique prisma userId) (fun found =>
     match found with
     | None => Ok (prisma, failure 404 "User not found")
     | Some row =>
         Ok (delete_user prisma userId,
             {| reply_status := 200;
                reply_success := true;
                reply_message := "User deleted successfully";
                reply_user := None |})
     end)))
    (fun error =>
       (prisma, failure 500 "An error occurred while deleting user")).

(** The identity [authenticate] attaches for a stored row. *)
Definition identity_of (row : UserRow.t) : User :=
  {| userId := UserRow.id row;
     email := UserRow.email row;
     role := UserRow.role row |}.

(** The identity the token-only paths attach for a decoded token. *)
Definition identity_of_claims (decoded : Jwt.Decoded) : User :=
  {| userId := JWTPayload.userId (Jwt.claims decoded);
     email := JWTPayload.email (Jwt.claims decoded);
     role := JWTPayload.role (Jwt.claims decoded) |}.

(** A row that [authenticate] does not hold back for approval. *)
Definition cleared (row : UserRow.t) : bool :=
  negb (String.eqb (UserRow.role row) "influencer"
        && negb (UserRow.isApproved row)).

(** The request with another body. *)
Definition set_body (req : Request) (b : option (string -> value))
  : Request :=
  {| authorization := authorization req;
     user := user req;
     params := params req;
     body := b |}.

(** ** Sample data *)

Definition admin_request : Request :=
  {| authorization := Some "Bearer t0";
     user := Some (mkUser "u1" "root@askmi.test" "admin");
     params := fun _ => VUndefined;
     body := None |}.

Definition sample_decoded : Jwt.Decoded :=
  Jwt.mkDecoded (JWTPayload.mk "u5" "ivy@askmi.test" "influencer") 100 604900.

Definition sample_verifyToken (token : string) : option Jwt.Decoded :=
  if String.eqb token "t5" then Some sample_decoded else None.

Definition sample_store : Prisma :=
  {| users := [ UserRow.mk "u1" "root@askmi.test" "admin" true;
                UserRow.mk "u5" "ivy@askmi.test" "influencer" false ];
     reachable := true |}.

Definition sample_request : Request :=
  {| authorization := Some "Bearer t5";
     user := None;
     params := fun _ => VUndefined;
     body := None |}.

Definition profile_request (uid : string) (who : User) : Request :=
  {| authorization := Some "Bearer t7";
     user := Some who;
     params := fun k => if String.eqb k "id" then VStr uid else VUndefined;
     body := Some (fun _ => VUndefined) |}.

(** A request without route parameter whose JSON body is [{ id }]. *)
Definition body_request (id : value) (who : User) : Request :=
  {| authorization := Some "Bearer t7";
     user := Some who;
     params := fun _ => VUndefined;
     body := Some (fun k => if String.eqb k "id" then id else VUndefined) |}.

(** A request without route parameter and without body. *)
Definition bare_request (who : User) : Request :=
  {| authorization := Some "Bearer t7";
     user := Some who;
     params := fun _ => VUndefined;
     body := None |}.

Definition sample_user : UserWithoutPassword.t :=
  {| UserWithoutPassword.id := "u7";
     UserWithoutPassword.email := "ann@askmi.test";
     UserWithoutPassword.phoneNumber := None;
     UserWithoutPassword.company := Some "Askmi";
     UserWithoutPassword.fullName := "Ann Lee";
     UserWithoutPassword.role := "user";
     UserWithoutPassword.createdAt := 1700000000;
     UserWithoutPassword.updatedAt := 1700000000 |}.

Definition admin_decoded : Jwt.Decoded :=
  Jwt.mkDecoded (JWTPayload.mk "u1" "root@askmi.test" "admin") 100 604900.

(** A verifier that knows the tokens [t1] (the admin) and [t5] (the
    influencer). *)
Definition two_tokens (token : string) : option Jwt.Decoded :=
  if String.eqb token "t1" then Some admin_decoded
  else if String.eqb token "t5" then Some sample_decoded
  else None.

Definition bearer_request (header : string) : Request :=
  {| authorization := Some header;
     user := None;
     params := fun _ => VUndefined;
     body := None |}.

Definition request_for (header id : string) : Request :=
  {| authorization := Some header;
     user := None;
     params := fun k => if String.eqb k "id" then VStr id else VUndefined;
     body := None |}.

(** A verifier whose token for [u5] carries an outdated email and role. *)
Definition stale_token (token : string) : option Jwt.Decoded :=
  if String.eqb token "t5" then
    Some (Jwt.mkDecoded (JWTPayload.mk "u5" "old@askmi.test" "admin") 1 2)
  else None.

(** The store with Ann's account, and the token the default service
    issues for her on the executable [jsonwebtoken] instance. *)
Definition sample_accounts : Prisma :=
  {| users := [ UserRow.mk "u1" "root@askmi.test" "admin" true;
                UserRow.mk "u7" "ann@askmi.test" "user" false ];
     reachable := true |}.

Definition sample_token : string :=
  match generateToken (jwt := ToyJwt.lib append)
          (new_JWTService (mkEnv None None)) 1000 sample_user with
  | Ok token => token
  | Throw _ => EmptyString
  end.

Definition ann : User := mkUser "u7" "ann@askmi.test" "user".

(** * Properties *)

(** ** The registry *)

Lemma isAdmin_true (r : string) : isAdmin r = true <-> r = UserRole.ADMIN.
Proof. unfold isAdmin. apply String.eqb_eq. Qed.

Lemma isAdmin_false (r : string) : isAdmin r = false <-> r <> UserRole.ADMIN.
Proof. unfold isAdmin. apply String.eqb_neq. Qed.

Lemma array_includes_true (arr : list string) (x : string) :
  array_includes arr x = true <-> x ∈ arr.
Proof. unfold array_includes. apply bool_decide_eq_true. Qed.

Lemma array_includes_false (arr : list string) (x : string) :
  array_includes arr x = false <-> x ∉ arr.
Proof. unfold array_includes. apply bool_decide_eq_false. Qed.

(** The lookup [ROLE_PERMISSIONS[role]], case by case. *)
Lemma get_ROLE_PERMISSIONS (r : string) :
  get ROLE_PERMISSIONS r =
    if String.eqb UserRole.ADMIN r then Own admin_permissions
    else if String.eqb UserRole.INFLUENCER r then Own influencer_permissions
    else if String.eqb UserRole.USER r then Own user_permissions
    else if array_includes object_prototype_keys r then Inherited r
    else Missing.
Proof.
  unfold get, ROLE_PERMISSIONS; cbn [own_property].
  repeat (destruct (String.eqb _ r); [reflexivity |]).
  reflexivity.
Qed.

Lemma role_lists_within_admin (p : Permission.t) :
  p ∈ influencer_permissions \/ p ∈ user_permissions ->
  p ∈ admin_permissions.
Proof.
  unfold influencer_permissions, user_permissions, admin_permissions.
  rewrite !elem_of_cons, !elem_of_nil. intuition (subst; auto 20).
Qed.

(** A verdict [true] of the registry means the permission is one of the
    thirteen enumerated ones. *)
Lemma held_is_enumerated (r : string) (p : Permission.t) :
  roleHasPermission r p = Ok true -> p ∈ admin_permissions.
Proof.
  unfold roleHasPermission. rewrite get_ROLE_PERMISSIONS.
  repeat match goal with
         | |- context [if ?c then _ else _] => destruct c
         end;
    intros H; try discriminate H;
    injection H as H; apply array_includes_true in H;
    auto using role_lists_within_admin.
Qed.

(** On an enumerated permission the code's substring test [':own'] and
    the scope component agree. *)
Lemma includes_own_scope (p : Permission.t) :
  p ∈ admin_permissions ->
  includes p ":own" = match scope p with Some ScopeOwn => true | _ => false end.
Proof.
  unfold admin_permissions.
  rewrite !elem_of_cons, !elem_of_nil.
  intros H.
  repeat (destruct H as [-> | H]; [reflexivity |]).
  destruct H.
Qed.

(** Roles that are neither enumerated nor shadowed by an inherited
    property are denied everything. *)
Lemma unknown_role_denied (r : string) (p : Permission.t) :
  r ∉ enumerated_roles ->
  r ∉ object_prototype_keys ->
  roleHasPermission r p = Ok false
  /\ getRolePermissions r = PermissionArray [].
Proof.
  intros Henum Hproto.
  assert (Hget : get ROLE_PERMISSIONS r = Missing).
  { rewrite get_ROLE_PERMISSIONS.
    unfold enumerated_roles in Henum.
    rewrite !not_elem_of_cons in Henum.
    destruct Henum as (Hu & Ha & Hi & _).
    apply not_eq_sym, String.eqb_neq in Hu, Ha, Hi.
    rewrite Ha, Hi, Hu.
    apply array_includes_false in Hproto. now rewrite Hproto. }
  unfold roleHasPermission, getRolePermissions.
  fold ROLE_PERMISSIONS. now rewrite Hget.
Qed.

(** A role named like an inherited property makes the lookup throw. *)
Lemma inherited_role_throws (r : string) (p : Permission.t) :
  r ∈ object_prototype_keys ->
  exists e, roleHasPermission r p = Throw e.
Proof.
  unfold object_prototype_keys.
  rewrite !elem_of_cons, !elem_of_nil.
  intros H.
  repeat (destruct H as [-> | H]; [eexists; reflexivity |]).
  destruct H.
Qed.

(** C8 (the code departs from the claim).  The registry is meant to deny
    by default: an unknown role has no permission and an empty permission
    list, and no call throws.  For the role string ["constructor"], which
    is not an enumerated role, [roleHasPermission] throws a [TypeError]
    and [getRolePermissions] returns the inherited property instead of
    the empty list. *)
Theorem registry_inherited_role_escapes_default :
  ("constructor" ∉ enumerated_roles)
  /\ roleHasPermission "constructor" Permission.USERS_READ_OWN
     = Throw (TypeError "ROLE_PERMISSIONS[userRole].includes is not a function")
  /\ getRolePermissions "constructor" = InheritedProperty "constructor"
  /\ getRolePermissions "constructor" <> PermissionArray [].
Proof.
  split; [| split; [reflexivity | split; [reflexivity | discriminate]]].
  unfold enumerated_roles.
  rewrite !not_elem_of_cons. repeat split; try discriminate.
  apply not_elem_of_nil.
Qed.

(** ** The authorization engine *)

(** C1.  An admin is granted every action on every resource, the missing
    one included.  The verdict is returned before the registry is
    consulted: it is the same whatever the registry call would answer,
    were it to throw, so it does not depend on the action being listed for
    the admin role. *)
Theorem admin_bypass (u : User) (resource : option Resource)
    (action : Permission.t) :
  role u = UserRole.ADMIN ->
  canAccessResource u resource action = Ok true
  /\ forall lookup, canAccessResource_with lookup u resource action = Ok true.
Proof.
  intros Hadmin. apply isAdmin_true in Hadmin.
  unfold canAccessResource, canAccessResource_with.
  rewrite Hadmin. split; [reflexivity | intros lookup; reflexivity].
Qed.

(** The bypass at work on an action that the admin list does not hold. *)
Lemma admin_bypass_witness :
  role (mkUser "u1" "root@askmi.test" "admin") = UserRole.ADMIN
  /\ roleHasPermission "admin" "billing:refund:all" = Ok false
  /\ canAccessResource (mkUser "u1" "root@askmi.test" "admin") None
       "billing:refund:all" = Ok true.
Proof.
  split; [reflexivity | split; [reflexivity |]].
  apply (admin_bypass (mkUser "u1" "root@askmi.test" "admin") None
           "billing:refund:all").
  reflexivity.
Defined.

(** What the engine does once the admin test has failed. *)
Lemma canAccessResource_non_admin_unfold (u : User)
    (resource : option Resource) (action : Permission.t) (held : bool) :
  role u <> UserRole.ADMIN ->
  roleHasPermission (role u) action = Ok held ->
  canAccessResource u resource action =
    Ok (held &&
        (negb (includes action ":own") ||
         match resource with
         | Some r =>
             match ownerId r with
             | Some o => truthy_string o && String.eqb o (userId u)
             | None => false
             end
         | None => false
         end)).
Proof.
  intros Hna Hheld. unfold canAccessResource, canAccessResource_with.
  apply isAdmin_false in Hna. rewrite Hna, Hheld. cbn [bind].
  destruct held; cbn [negb andb]; [| reflexivity].
  destruct (includes action ":own"); cbn [negb orb]; [| reflexivity].
  destruct resource as [[[o |]] |]; cbn [ownerId]; try reflexivity.
  now destruct (truthy_string o).
Qed.

(** C2.  For an identity that is not an admin: when the registry answers
    that the role does not hold the permission, access is denied; when it
    holds an [own]-scoped permission, access is granted exactly when the
    resource is there, carries an owner id (one that is defined and not
    the empty string, which the code counts as missing) and that id is
    the identity's; when it holds an [all]-scoped permission, access is
    granted whatever the resource. *)
Theorem canAccessResource_non_admin (u : User)
    (resource : option Resource) (action : Permission.t) :
  role u <> UserRole.ADMIN ->
  (roleHasPermission (role u) action = Ok false ->
   canAccessResource u resource action = Ok false)
  /\ (roleHasPermission (role u) action = Ok true ->
      scope action = Some ScopeOwn ->
      exists verdict,
        canAccessResource u resource action = Ok verdict
        /\ (verdict = true <->
            exists r o, resource = Some r /\ ownerId r = Some o
                        /\ o <> EmptyString /\ o = userId u))
  /\ (roleHasPermission (role u) action = Ok true ->
      scope action = Some ScopeAll ->
      canAccessResource u resource action = Ok true).
Proof.
  intros Hna. repeat split.
  - intros H. now rewrite (canAccessResource_non_admin_unfold _ _ _ _ Hna H).
  - intros H Hscope.
    rewrite (canAccessResource_non_admin_unfold _ _ _ _ Hna H).
    rewrite (includes_own_scope _ (held_is_enumerated _ _ H)), Hscope.
    cbn [negb andb orb]. eexists; split; [reflexivity |].
    destruct resource as [[[o |]] |]; cbn [ownerId].
    + split.
      * intros Hv. apply andb_true_iff in Hv as [Ht He].
        apply String.eqb_eq in He.
        exists (mkResource (Some o)), o. repeat split; auto.
        intros ->. discriminate Ht.
      * intros (r & o' & [= <-] & [= <-] & Hne & Heq).
        apply andb_true_iff. split; [| now apply String.eqb_eq].
        destruct o; [contradiction | reflexivity].
    + split; [discriminate |].
      intros (r & o' & [= <-] & Hnone & _). discriminate Hnone.
    + split; [discriminate |].
      intros (r & o' & Hnone & _). discriminate Hnone.
  - intros H Hscope.
    rewrite (canAccessResource_non_admin_unfold _ _ _ _ Hna H).
    rewrite (includes_own_scope _ (held_is_enumerated _ _ H)), Hscope.
    reflexivity.
Qed.

(** The three cases on the [user] role: an action outside its list, its
    own profile, and the shared read permission on a foreign resource. *)
Lemma canAccessResource_non_admin_witness :
  let u := mkUser "u7" "ann@askmi.test" "user" in
  (canAccessResource u (Some (mkResource (Some "u7")))
     Permission.USERS_DELETE_ALL = Ok false)
  /\ (exists verdict,
        canAccessResource u (Some (mkResource (Some "u7")))
          Permission.USERS_WRITE_OWN = Ok verdict
        /\ (verdict = true <->
            exists r o, Some (mkResource (Some "u7")) = Some r
                        /\ ownerId r = Some o
                        /\ o <> EmptyString /\ o = userId u))
  /\ (canAccessResource u (Some (mkResource (Some "u9")))
        Permission.CONTENT_READ_ALL = Ok true).
Proof.
  intros u.
  assert (Hna : role u <> UserRole.ADMIN) by discriminate.
  destruct (canAccessResource_non_admin u (Some (mkResource (Some "u7")))
              Permission.USERS_DELETE_ALL Hna) as (H1 & _ & _).
  destruct (canAccessResource_non_admin u (Some (mkResource (Some "u7")))
              Permission.USERS_WRITE_OWN Hna) as (_ & H2 & _).
  destruct (canAccessResource_non_admin u (Some (mkResource (Some "u9")))
              Permission.CONTENT_READ_ALL Hna) as (_ & _ & H3).
  split; [apply H1; reflexivity |].
  split; [apply H2; reflexivity | apply H3; reflexivity].
Defined.

(** For an owner who is not an admin the either-scope check looks at the
    [own] permission alone. *)
Lemma canAccessResourceOrOwn_owner (u : User) (r : Resource)
    (ownAction allAction : Permission.t) :
  role u <> UserRole.ADMIN ->
  userId u <> EmptyString ->
  ownerId r = Some (userId u) ->
  canAccessResourceOrOwn u (Some r) ownAction allAction
  = roleHasPermission (role u) ownAction.
Proof.
  intros Hna Hne Hown. unfold canAccessResourceOrOwn, isResourceOwner.
  apply isAdmin_false in Hna. rewrite Hna, Hown. cbn [truthy_opt_string].
  destruct (userId u) eqn:Hu; [contradiction |].
  cbn [truthy_string negb andb]. now rewrite String.eqb_refl.
Qed.

(** For everybody else who is not an admin it looks at the [all]
    permission alone. *)
Lemma canAccessResourceOrOwn_stranger (u : User) (r : Resource) (o : string)
    (ownAction allAction : Permission.t) :
  role u <> UserRole.ADMIN ->
  ownerId r = Some o ->
  o <> userId u ->
  canAccessResourceOrOwn u (Some r) ownAction allAction
  = roleHasPermission (role u) allAction.
Proof.
  intros Hna Hown Hne. unfold canAccessResourceOrOwn, isResourceOwner.
  apply isAdmin_false in Hna. rewrite Hna, Hown.
  assert (He : String.eqb (userId u) o = false)
    by (apply String.eqb_neq; congruence).
  rewrite He. now destruct (truthy_opt_string (Some o)), (truthy_string o).
Qed.

(** C10.  Owning a resource can cost access under the either-scope check:
    a [user] who owns a resource and whose role holds the [all] action
    but not the [own] action of the pair is denied by
    [canAccessResourceOrOwn], although [canAccessResource] grants the
    [all] action on the same resource and [canAccessResourceOrOwn] grants
    the same pair on a resource owned by somebody else. *)
Theorem ownership_can_reduce_access :
  exists (u : User) (mine theirs : Resource)
         (ownAction allAction : Permission.t),
    role u <> UserRole.ADMIN
    /\ roleHasPermission (role u) allAction = Ok true
    /\ roleHasPermission (role u) ownAction = Ok false
    /\ ownerId mine = Some (userId u)
    /\ ownerId theirs <> Some (userId u)
    /\ canAccessResourceOrOwn u (Some mine) ownAction allAction = Ok false
    /\ canAccessResource u (Some mine) allAction = Ok true
    /\ canAccessResourceOrOwn u (Some theirs) ownAction allAction = Ok true.
Proof.
  exists (mkUser "u7" "ann@askmi.test" "user"),
         (mkResource (Some "u7")), (mkResource (Some "u9")),
         Permission.CONTENT_WRITE_ALL, Permission.CONTENT_READ_ALL.
  assert (Hna : role (mkUser "u7" "ann@askmi.test" "user") <> UserRole.ADMIN)
    by discriminate.
  split; [exact Hna |].
  split; [reflexivity |]. split; [reflexivity |]. split; [reflexivity |].
  split; [discriminate |].
  split; [| split; [reflexivity |]].
  - rewrite canAccessResourceOrOwn_owner by (auto; discriminate).
    reflexivity.
  - rewrite (canAccessResourceOrOwn_stranger _ _ "u9")
      by (auto; discriminate).
    reflexivity.
Qed.

(** ** The role gates *)

Lemma authorize_authenticated (roles : list string) (req : Request)
    (u : User) :
  user req = Some u ->
  authorize roles req =
    if array_includes roles (role u) then Next req
    else reject 403 ("Insufficient permissions. Required roles: "
                     +:+ String.concat ", " roles).
Proof.
  intros Hu. unfold authorize. rewrite Hu.
  now destruct (array_includes roles (role u)).
Qed.

Lemma requireAnyRole_admin (roles : list string) (req : Request) (u : User) :
  user req = Some u ->
  role u = UserRole.ADMIN ->
  requireAnyRole roles req = Next req.
Proof.
  intros Hu Hadmin. unfold requireAnyRole. rewrite Hu.
  apply isAdmin_true in Hadmin. now rewrite Hadmin.
Qed.

(** C3, as the code has it.  [requireAnyRole] lets an admin through
    whatever the role list.  [authorize] has no admin rule: it is a plain
    membership test, so an admin goes through exactly when ['admin'] is
    one of the listed roles and is answered 403 otherwise. *)
Theorem role_gates_admin (roles : list string) (req : Request) (u : User) :
  user req = Some u ->
  role u = UserRole.ADMIN ->
  requireAnyRole roles req = Next req
  /\ (UserRole.ADMIN ∈ roles -> authorize roles req = Next req)
  /\ (UserRole.ADMIN ∉ roles ->
      exists msg, authorize roles req = reject 403 msg).
Proof.
  intros Hu Hadmin.
  split; [exact (requireAnyRole_admin roles req u Hu Hadmin) |].
  rewrite (authorize_authenticated roles req u Hu), Hadmin.
  split; intros Hin.
  - apply array_includes_true in Hin. now rewrite Hin.
  - apply array_includes_false in Hin. rewrite Hin. now eexists.
Qed.

Lemma role_gates_admin_witness :
  requireAnyRole ["influencer"] admin_request = Next admin_request
  /\ authorize ["user"; "admin"] admin_request = Next admin_request
  /\ exists msg, authorize ["influencer"] admin_request = reject 403 msg.
Proof.
  destruct (role_gates_admin ["influencer"] admin_request
              (mkUser "u1" "root@askmi.test" "admin") eq_refl eq_refl)
    as (Hany & _ & Hout).
  destruct (role_gates_admin ["user"; "admin"] admin_request
              (mkUser "u1" "root@askmi.test" "admin") eq_refl eq_refl)
    as (_ & Hin & _).
  split; [exact Hany | split].
  - apply Hin. vm_compute. repeat constructor.
  - apply Hout. apply array_includes_false. reflexivity.
Defined.

(** The claim that both gates always pass an admin fails on [authorize]:
    an admin asking for a route reserved to ['user'] is answered 403. *)
Lemma authorize_rejects_unlisted_admin :
  user admin_request = Some (mkUser "u1" "root@askmi.test" "admin")
  /\ role (mkUser "u1" "root@askmi.test" "admin") = UserRole.ADMIN
  /\ authorize ["user"] admin_request
     = reject 403 "Insufficient permissions. Required roles: user"
  /\ passes (authorize ["user"] admin_request) = false.
Proof. repeat split. Qed.

(** C9.  [requireAllRoles] and [requireAnyRole] give the same verdict on
    every request and every role list: both hand on the same request, or
    both answer with the same status; only the wording of the 403 message
    differs. *)
Theorem requireAllRoles_same_verdict (roles : list string) (req : Request) :
  passes (requireAllRoles roles req) = passes (requireAnyRole roles req)
  /\ (forall req', requireAllRoles roles req = Next req'
                   <-> requireAnyRole roles req = Next req')
  /\ (forall res, requireAllRoles roles req = Respond res ->
        exists res', requireAnyRole roles req = Respond res'
                     /\ status res' = status res).
Proof.
  unfold requireAllRoles, requireAnyRole.
  destruct (user req) as [u |]; [| repeat split; eauto; discriminate].
  destruct (isAdmin (role u)); [repeat split; eauto; discriminate |].
  destruct (array_includes roles (role u)); cbn [negb].
  - repeat split; eauto; discriminate.
  - repeat split; try discriminate.
    intros res [= <-]. eexists; split; reflexivity.
Qed.

(** ** Identity resolution *)

Lemma split_free (sep : ascii) (w : string) :
  free_of sep w = true -> split sep w = [w].
Proof.
  induction w as [| a w IH]; cbn [free_of split]; [reflexivity |].
  intros H. apply andb_true_iff in H as [Ha Hw].
  apply negb_true_iff in Ha. rewrite Ha, (IH Hw). reflexivity.
Qed.

Lemma split_at_first (sep : ascii) (w rest : string) :
  free_of sep w = true ->
  split sep (w +:+ String sep rest) = w :: split sep rest.
Proof.
  induction w as [| a w IH]; cbn [free_of].
  - intros _. change (EmptyString +:+ String sep rest) with (String sep rest).
    cbn [split]. now rewrite Ascii.eqb_refl.
  - intros H. apply andb_true_iff in H as [Ha Hw].
    apply negb_true_iff in Ha.
    change (String a w +:+ String sep rest)
      with (String a (w +:+ String sep rest)).
    cbn [split]. rewrite Ha, (IH Hw). reflexivity.
Qed.

(** A header [Bearer <token>] splits into its two parts. *)
Lemma split_bearer (token : string) :
  free_of " " token = true ->
  split " " ("Bearer " +:+ token) = ["Bearer"; token].
Proof.
  intros Hfree.
  change ("Bearer " +:+ token) with ("Bearer" +:+ String " " token).
  rewrite split_at_first by reflexivity.
  now rewrite split_free.
Qed.

(** The reasons the middleware gives are pairwise different texts. *)
Lemma rejection_messages_distinct :
  NoDup [ MSG_NO_TOKEN; MSG_INVALID_FORMAT; MSG_INVALID_TOKEN;
          MSG_USER_NOT_FOUND; MSG_PENDING_APPROVAL; MSG_AUTH_FAILED;
          MSG_AUTH_REQUIRED; MSG_RESOURCE_ID_REQUIRED; MSG_NOT_OWNER ].
Proof. apply (bool_decide_unpack _). vm_compute. reflexivity. Qed.

(** [authenticate] once the header has the bearer form and the token
    verifies: everything is decided by the stored user. *)
Lemma authenticate_verified (verifyToken : string -> option Jwt.Decoded)
    (prisma : Prisma) (req : Request) (token : string)
    (decoded : Jwt.Decoded) :
  authorization req = Some ("Bearer " +:+ token) ->
  free_of " " token = true ->
  verifyToken token = Some decoded ->
  authenticate verifyToken prisma req =
    match findUnique prisma (JWTPayload.userId (Jwt.claims decoded)) with
    | Throw _ => reject 401 MSG_AUTH_FAILED
    | Ok None => reject 401 MSG_USER_NOT_FOUND
    | Ok (Some row) =>
        if String.eqb (UserRow.role row) "influencer"
           && negb (UserRow.isApproved row)
        then reject 403 MSG_PENDING_APPROVAL
        else Next (set_user req {| userId := UserRow.id row;
                                   email := UserRow.email row;
                                   role := UserRow.role row |})
    end.
Proof.
  intros Hh Hfree Hv. unfold authenticate.
  rewrite Hh, (split_bearer token Hfree).
  change (truthy_string ("Bearer " +:+ token)) with true.
  cbn [negb]. rewrite String.eqb_refl. cbn [negb]. rewrite Hv.
  destruct (findUnique prisma _) as [[row |] | e]; cbn [bind try_catch];
    try reflexivity.
  now destruct (String.eqb (UserRow.role row) "influencer"
                && negb (UserRow.isApproved row)).
Qed.

(** C4.  A request whose bearer token verifies, for a stored user who is
    an influencer not yet approved, is answered 403 with the
    pending-approval reason, a text of its own; no later middleware of
    the route runs.  Against a store in which the same user is approved,
    the same request with the same token is handed on with the stored
    identity attached. *)
Theorem approval_gate (verifyToken : string -> option Jwt.Decoded)
    (before after : Prisma) (req : Request) (token : string)
    (decoded : Jwt.Decoded) (row row' : UserRow.t) (authz : Middleware) :
  authorization req = Some ("Bearer " +:+ token) ->
  free_of " " token = true ->
  verifyToken token = Some decoded ->
  findUnique before (JWTPayload.userId (Jwt.claims decoded)) = Ok (Some row) ->
  UserRow.role row = "influencer" ->
  UserRow.isApproved row = false ->
  findUnique after (JWTPayload.userId (Jwt.claims decoded)) = Ok (Some row') ->
  UserRow.isApproved row' = true ->
  authenticate verifyToken before req = reject 403 MSG_PENDING_APPROVAL
  /\ and_then (authenticate verifyToken before) authz req
     = reject 403 MSG_PENDING_APPROVAL
  /\ MSG_PENDING_APPROVAL <> MSG_INVALID_TOKEN
  /\ MSG_PENDING_APPROVAL <> MSG_INVALID_FORMAT
  /\ authenticate verifyToken after req
     = Next (set_user req {| userId := UserRow.id row';
                             email := UserRow.email row';
                             role := UserRow.role row' |}).
Proof.
  intros Hh Hfree Hv Hrow Hrole Hpending Hrow' Happroved.
  assert (Hbefore :
            authenticate verifyToken before req
            = reject 403 MSG_PENDING_APPROVAL).
  { rewrite (authenticate_verified _ _ _ _ _ Hh Hfree Hv), Hrow.
    now rewrite Hrole, Hpending. }
  split; [exact Hbefore |].
  split; [unfold and_then; now rewrite Hbefore |].
  split; [discriminate | split; [discriminate |]].
  rewrite (authenticate_verified _ _ _ _ _ Hh Hfree Hv), Hrow'.
  rewrite Happroved. cbn [negb]. now rewrite andb_false_r.
Qed.

(** The gate before and after the admin's approval of user [u5]. *)
Lemma approval_gate_witness :
  authenticate sample_verifyToken sample_store sample_request
  = reject 403 MSG_PENDING_APPROVAL
  /\ authenticate sample_verifyToken (approve sample_store "u5")
       sample_request
     = Next (set_user sample_request
               (mkUser "u5" "ivy@askmi.test" "influencer")).
Proof.
  destruct (approval_gate sample_verifyToken sample_store
              (approve sample_store "u5") sample_request "t5"
              sample_decoded
              (UserRow.mk "u5" "ivy@askmi.test" "influencer" false)
              (UserRow.mk "u5" "ivy@askmi.test" "influencer" true)
              (authorize ["admin"])
              eq_refl eq_refl eq_refl eq_refl eq_refl eq_refl eq_refl eq_refl)
    as (Hbefore & _ & _ & _ & Hafter).
  split; [exact Hbefore | exact Hafter].
Defined.

(** C6, as the code has it.  The headers ["Token xyz"] and ["Bearer"] are
    answered 401 with the invalid-format reason; the empty header is
    answered 401 with the no-token reason, as a missing header is.  Both
    texts differ from the one for a token that fails verification, and
    the answer is the same whatever token verification and the store
    would say. *)
Theorem malformed_authorization_header
    (verifyToken : string -> option Jwt.Decoded) (prisma : Prisma)
    (u : option User) (ps : string -> value)
    (bd : option (string -> value)) :
  authenticate verifyToken prisma (mkRequest (Some "Token xyz") u ps bd)
  = reject 401 MSG_INVALID_FORMAT
  /\ authenticate verifyToken prisma (mkRequest (Some "Bearer") u ps bd)
     = reject 401 MSG_INVALID_FORMAT
  /\ authenticate verifyToken prisma (mkRequest (Some "") u ps bd)
     = reject 401 MSG_NO_TOKEN
  /\ authenticate verifyToken prisma (mkRequest None u ps bd)
     = reject 401 MSG_NO_TOKEN
  /\ MSG_INVALID_FORMAT <> MSG_INVALID_TOKEN
  /\ MSG_NO_TOKEN <> MSG_INVALID_TOKEN.
Proof.
  split; [reflexivity |]. split; [reflexivity |].
  split; [reflexivity |]. split; [reflexivity |].
  split; discriminate.
Qed.

(** The claim that the empty header gets the invalid-format reason fails:
    even with a verifier that would accept any token, the answer is the
    no-token reason, a different text. *)
Lemma empty_header_is_no_token :
  authenticate (fun _ => Some sample_decoded) sample_store
    (mkRequest (Some "") None (fun _ => VUndefined) None)
  = reject 401 MSG_NO_TOKEN
  /\ reject 401 MSG_NO_TOKEN <> reject 401 MSG_INVALID_FORMAT.
Proof. split; [reflexivity | discriminate]. Qed.

(** ** Ownership or role *)

Lemma requireOwnershipOrRole_ownership (resourceIdParam : option string)
    (allowedRoles : list string) (req : Request) (u : User) :
  user req = Some u ->
  role u <> UserRole.ADMIN ->
  role u ∉ allowedRoles ->
  requireOwnershipOrRole resourceIdParam allowedRoles req =
    match extracted_resource_id resourceIdParam req with
    | Ok (VStr rid) =>
        if negb (truthy_string rid) then
          Ok (reject 400 MSG_RESOURCE_ID_REQUIRED)
        else if String.eqb rid (userId u) then Ok (Next req)
        else Ok (reject 403 MSG_NOT_OWNER)
    | Ok _ => Ok (reject 400 MSG_RESOURCE_ID_REQUIRED)
    | Throw e => Throw e
    end.
Proof.
  intros Hu Hna Hout. unfold requireOwnershipOrRole, extracted_resource_id.
  rewrite Hu. apply isAdmin_false in Hna. rewrite Hna.
  apply array_includes_false in Hout. rewrite Hout, andb_false_r.
  destruct (param_or_body req _) as [v | e]; cbn [bind]; [| reflexivity].
  now destruct (first_if_array v).
Qed.

(** X30.  [requireOwnershipOrRole] reads [req.body[k]] unguarded: for an
    identity that is neither an admin nor of a bypass role, a request
    whose route parameter is falsy and whose body is [undefined] makes
    the middleware throw a [TypeError]; no 400 is sent. *)
Theorem requireOwnershipOrRole_without_body (resourceIdParam : option string)
    (allowedRoles : list string) (req : Request) (u : User) :
  user req = Some u ->
  role u <> UserRole.ADMIN ->
  role u ∉ allowedRoles ->
  truthy (params req (default "id" resourceIdParam)) = false ->
  body req = None ->
  requireOwnershipOrRole resourceIdParam allowedRoles req
  = Throw (TypeError "Cannot read properties of undefined").
Proof.
  intros Hu Hna Hout Hfalsy Hbody.
  rewrite (requireOwnershipOrRole_ownership _ _ _ _ Hu Hna Hout).
  unfold extracted_resource_id, param_or_body, body_property.
  now rewrite Hfalsy, Hbody.
Qed.

Lemma requireOwnershipOrRole_without_body_witness :
  requireOwnershipOrRole (Some "id") ["admin"] (bare_request ann)
  = Throw (TypeError "Cannot read properties of undefined").
Proof.
  apply (requireOwnershipOrRole_without_body (Some "id") ["admin"]
           (bare_request ann) ann);
    [reflexivity | discriminate | | reflexivity | reflexivity].
  apply array_includes_false. reflexivity.
Defined.

(** C7, as the code has it.  For an authenticated identity: an admin
    passes; otherwise a role of the bypass list passes; otherwise the
    identifier read from [req.params[k] || req.body[k]] (its first element
    when it is an array) decides.  When it is falsy (undefined, null, the
    empty string, ...) or not a string, the answer is 400; when it is a
    string that is not empty, the request passes if it equals the user id
    and is answered 403 if it does not.  A request on which the
    identifier cannot be read is not covered. *)
Theorem requireOwnershipOrRole_verdicts (resourceIdParam : option string)
    (allowedRoles : list string) (req : Request) (u : User) :
  user req = Some u ->
  (role u = UserRole.ADMIN ->
   requireOwnershipOrRole resourceIdParam allowedRoles req = Ok (Next req))
  /\ (role u <> UserRole.ADMIN -> role u ∈ allowedRoles ->
      requireOwnershipOrRole resourceIdParam allowedRoles req
      = Ok (Next req))
  /\ (forall resourceId,
        role u <> UserRole.ADMIN -> role u ∉ allowedRoles ->
        extracted_resource_id resourceIdParam req = Ok resourceId ->
        (truthy resourceId = false \/ as_string resourceId = None ->
         requireOwnershipOrRole resourceIdParam allowedRoles req
         = Ok (reject 400 MSG_RESOURCE_ID_REQUIRED))
        /\ (forall rid,
              resourceId = VStr rid ->
              rid <> EmptyString ->
              (rid = userId u ->
               requireOwnershipOrRole resourceIdParam allowedRoles req
               = Ok (Next req))
              /\ (rid <> userId u ->
                  requireOwnershipOrRole resourceIdParam allowedRoles req
                  = Ok (reject 403 MSG_NOT_OWNER)))).
Proof.
  intros Hu. split; [| split].
  - intros Hadmin. unfold requireOwnershipOrRole. rewrite Hu.
    apply isAdmin_true in Hadmin. now rewrite Hadmin.
  - intros Hna Hin. unfold requireOwnershipOrRole. rewrite Hu.
    apply isAdmin_false in Hna. rewrite Hna.
    assert (Hlen : (0 <? List.length allowedRoles)%nat = true).
    { destruct allowedRoles; [now apply elem_of_nil in Hin | reflexivity]. }
    apply array_includes_true in Hin. now rewrite Hlen, Hin.
  - intros resourceId Hna Hout Hread.
    rewrite (requireOwnershipOrRole_ownership _ _ _ _ Hu Hna Hout), Hread.
    split.
    + intros [Hfalsy | Hnostr]; destruct resourceId;
        try reflexivity; try discriminate.
      cbn [truthy] in Hfalsy. now rewrite Hfalsy.
    + intros rid -> Hne.
      assert (Ht : truthy_string rid = true)
        by (destruct rid; [contradiction | reflexivity]).
      rewrite Ht. cbn [negb]. split.
      * intros ->. now rewrite String.eqb_refl.
      * intros Hneq. apply String.eqb_neq in Hneq. now rewrite Hneq.
Qed.

(** The route [/:id] guarded by [requireOwnershipOrRole('id', 'admin')]:
    the owner passes and a stranger is answered 403; a request whose body
    carries a number as identifier is answered 400. *)
Lemma requireOwnershipOrRole_verdicts_witness :
  requireOwnershipOrRole (Some "id") ["admin"] (profile_request "u7" ann)
  = Ok (Next (profile_request "u7" ann))
  /\ requireOwnershipOrRole (Some "id") ["admin"] (profile_request "u9" ann)
     = Ok (reject 403 MSG_NOT_OWNER)
  /\ requireOwnershipOrRole (Some "id") ["admin"]
       (body_request (VNum 7) ann)
     = Ok (reject 400 MSG_RESOURCE_ID_REQUIRED).
Proof.
  assert (Hna : role ann <> UserRole.ADMIN) by discriminate.
  assert (Hout : role ann ∉ ["admin"]).
  { apply array_includes_false. reflexivity. }
  destruct (requireOwnershipOrRole_verdicts (Some "id") ["admin"]
              (profile_request "u7" ann) ann eq_refl)
    as (_ & _ & Hown).
  destruct (requireOwnershipOrRole_verdicts (Some "id") ["admin"]
              (profile_request "u9" ann) ann eq_refl)
    as (_ & _ & Hother).
  destruct (requireOwnershipOrRole_verdicts (Some "id") ["admin"]
              (body_request (VNum 7) ann) ann eq_refl)
    as (_ & _ & Hnum).
  split; [| split].
  - destruct (Hown (VStr "u7") Hna Hout eq_refl) as [_ H].
    apply (H "u7"); [reflexivity | discriminate | reflexivity].
  - destruct (Hother (VStr "u9") Hna Hout eq_refl) as [_ H].
    apply (H "u9"); [reflexivity | discriminate | discriminate].
  - destruct (Hnum (VNum 7) Hna Hout eq_refl) as [H _].
    apply H. right. reflexivity.
Defined.

(** The claim that every string identifier is compared with the user id
    fails on the empty string: a body [{ id: '' }] carries a string that
    differs from the user id, and the answer is 400, not 403. *)
Lemma empty_identifier_is_bad_request :
  user (body_request (VStr "") ann) = Some ann
  /\ role ann <> UserRole.ADMIN
  /\ extracted_resource_id (Some "id") (body_request (VStr "") ann)
     = Ok (VStr "")
  /\ "" <> userId ann
  /\ requireOwnershipOrRole (Some "id") [] (body_request (VStr "") ann)
     = Ok (reject 400 MSG_RESOURCE_ID_REQUIRED)
  /\ requireOwnershipOrRole (Some "id") [] (body_request (VStr "") ann)
     <> Ok (reject 403 MSG_NOT_OWNER).
Proof. repeat split; discriminate. Qed.

(** ** The token service *)

Lemma append_cons (a : ascii) (s t : string) :
  String a s +:+ t = String a (s +:+ t).
Proof. reflexivity. Qed.

Lemma append_assoc (s t v : string) : (s +:+ t) +:+ v = s +:+ (t +:+ v).
Proof.
  induction s as [| a s IH]; [reflexivity |].
  now rewrite !append_cons, IH.
Qed.

Module ToyJwtFacts.
Import ToyJwt.

Lemma dec_field_enc (s rest : string) :
  dec_field (enc_field s +:+ rest) = Some (s, rest).
Proof.
  induction s as [| c s IH]; [reflexivity |].
  cbn [enc_field]. rewrite !append_cons. cbn [dec_field].
  change (Ascii.eqb "x" ".") with false.
  change (Ascii.eqb "x" "x") with true.
  cbn iota. now rewrite IH.
Qed.

Lemma dec_pos_enc (p : positive) : dec_pos (enc_pos p) = Some p.
Proof.
  induction p as [p IH | p IH |]; cbn [enc_pos dec_pos];
    [ change (Ascii.eqb "i" "h") with false;
      change (Ascii.eqb "i" "o") with false;
      change (Ascii.eqb "i" "i") with true
    | change (Ascii.eqb "o" "h") with false;
      change (Ascii.eqb "o" "o") with true
    | reflexivity ];
    cbn iota; now rewrite IH.
Qed.

Lemma dec_num_enc (n : N) : dec_num (enc_num n) = Some n.
Proof.
  destruct n as [| p]; [reflexivity |].
  assert (H : dec_num (enc_pos p) = N.pos <$> dec_pos (enc_pos p))
    by now destruct p.
  unfold enc_num. now rewrite H, dec_pos_enc.
Qed.

Lemma dec_body_enc (p : JWTPayload.t) (iat exp : N) (signature : string) :
  dec_body (enc_body p iat exp +:+ signature)
  = Some (Jwt.mkDecoded p iat exp, signature).
Proof.
  unfold dec_body, enc_body. rewrite !append_assoc.
  repeat (rewrite dec_field_enc; cbn [mbind option_bind]).
  repeat (rewrite dec_num_enc; cbn [mbind option_bind]).
  now destruct p.
Qed.

Section Digest.
Variable digest : string -> string -> string.

Lemma toy_sign_timespan (payload : JWTPayload.t) (secret expiresIn : string)
    (now d : N) :
  timespan expiresIn = Some d ->
  exists token, sign digest payload secret expiresIn now = Ok token.
Proof. intros H. unfold sign. rewrite H. now eexists. Qed.

Lemma toy_verify_sign (payload : JWTPayload.t) (secret expiresIn : string)
    (now d : N) (token : string) (later : N) :
  timespan expiresIn = Some d ->
  sign digest payload secret expiresIn now = Ok token ->
  (later < now + d)%N ->
  verify digest token secret later
  = Ok (Jwt.mkDecoded payload now (now + d)).
Proof.
  intros Hd Hsign Hfresh. unfold sign in Hsign. rewrite Hd in Hsign.
  injection Hsign as <-. unfold verify. rewrite dec_body_enc.
  cbn [Jwt.claims Jwt.iat Jwt.exp]. rewrite String.eqb_refl. cbn [negb].
  apply N.leb_gt in Hfresh. now rewrite Hfresh.
Qed.

(** A token checked at or after its expiry does not verify. *)
Lemma toy_verify_expired (payload : JWTPayload.t) (secret expiresIn : string)
    (now d : N) (token : string) (later : N) :
  timespan expiresIn = Some d ->
  sign digest payload secret expiresIn now = Ok token ->
  (now + d <= later)%N ->
  verify digest token secret later = Throw (LibraryError "jwt expired").
Proof.
  intros Hd Hsign Hlate. unfold sign in Hsign. rewrite Hd in Hsign.
  injection Hsign as <-. unfold verify. rewrite dec_body_enc.
  cbn [Jwt.claims Jwt.iat Jwt.exp]. rewrite String.eqb_refl. cbn [negb].
  apply N.leb_le in Hlate. now rewrite Hlate.
Qed.

Lemma toy_lawful : Jwt.Lawful (lib digest).
Proof.
  split.
  - intros payload secret expiresIn now d _. apply toy_sign_timespan.
  - intros payload secret expiresIn now d token later _.
    apply toy_verify_sign.
Qed.

End Digest.
End ToyJwtFacts.

Lemma env_or_truthy (x : option string) (fallback : string) :
  fallback <> EmptyString -> env_or x fallback <> EmptyString.
Proof.
  intros Hf. unfold env_or.
  destruct x as [[| c s] |]; cbn [truthy_string]; auto; discriminate.
Qed.

(** The service never signs with an empty secret. *)
Lemma new_JWTService_secret (env : ProcessEnv) :
  secret (new_JWTService env) <> EmptyString.
Proof. cbn [new_JWTService secret]. apply env_or_truthy. discriminate. Qed.

(** C5.  On a [jsonwebtoken] that behaves as documented, a token that
    [generateToken] issues for a user verifies under the same service,
    hence the same secret, while it has not expired, to a payload that is
    not null and carries the user's id, email and role; the issue and
    expiry stamps come on top. *)
Theorem token_round_trip `{jwt : Jwt.Lib} (env : ProcessEnv)
    (u : UserWithoutPassword.t) (issued later d : N) :
  Jwt.Lawful jwt ->
  Jwt.timespan (expiresIn (new_JWTService env)) = Some d ->
  (later < issued + d)%N ->
  exists token decoded,
    generateToken (new_JWTService env) issued u = Ok token
    /\ verifyToken (new_JWTService env) later token = Some decoded
    /\ JWTPayload.userId (Jwt.claims decoded) = UserWithoutPassword.id u
    /\ JWTPayload.email (Jwt.claims decoded) = UserWithoutPassword.email u
    /\ JWTPayload.role (Jwt.claims decoded) = UserWithoutPassword.role u.
Proof.
  intros Hlaw Hspan Hfresh. unfold generateToken, verifyToken.
  pose proof (new_JWTService_secret env) as Hsecret.
  destruct (Jwt.sign_timespan jwt Hlaw
              {| JWTPayload.userId := UserWithoutPassword.id u;
                 JWTPayload.email := UserWithoutPassword.email u;
                 JWTPayload.role := UserWithoutPassword.role u |}
              (secret (new_JWTService env)) (expiresIn (new_JWTService env))
              issued d Hsecret Hspan)
    as [token Hsign].
  exists token. eexists. split; [exact Hsign |].
  rewrite (Jwt.verify_sign jwt Hlaw _ _ _ _ _ _ later Hsecret Hspan Hsign
             Hfresh).
  cbn [bind try_catch Jwt.claims]. repeat split; reflexivity.
Qed.

(** The default service (no environment variables, seven days of life),
    run on the executable instance: issued at 1000 s, checked at 2000 s. *)
Lemma token_round_trip_witness :
  let service := new_JWTService (mkEnv None None) in
  exists token decoded,
    generateToken (jwt := ToyJwt.lib append) service 1000 sample_user
    = Ok token
    /\ verifyToken (jwt := ToyJwt.lib append) service 2000 token
       = Some decoded
    /\ JWTPayload.userId (Jwt.claims decoded) = "u7"
    /\ JWTPayload.email (Jwt.claims decoded) = "ann@askmi.test"
    /\ JWTPayload.role (Jwt.claims decoded) = "user".
Proof.
  intros service.
  apply (token_round_trip (jwt := ToyJwt.lib append) (mkEnv None None)
           sample_user 1000 2000 604800);
    [apply ToyJwtFacts.toy_lawful | reflexivity | reflexivity].
Defined.

(** * Further properties of the code *)

(** ** The registry table *)

Lemma roleHasPermission_admin (p : Permission.t) :
  roleHasPermission UserRole.ADMIN p = Ok (array_includes admin_permissions p).
Proof.
  unfold roleHasPermission. rewrite get_ROLE_PERMISSIONS.
  now rewrite String.eqb_refl.
Qed.

(** X1.  Whatever permission the registry grants to some role, it grants
    to the admin role as well: the admin list contains the other two. *)
Theorem admin_list_is_largest (r : string) (p : Permission.t) :
  roleHasPermission r p = Ok true ->
  roleHasPermission UserRole.ADMIN p = Ok true.
Proof.
  intros H. apply held_is_enumerated in H.
  rewrite roleHasPermission_admin. f_equal.
  now apply array_includes_true.
Qed.

Lemma admin_list_is_largest_witness :
  roleHasPermission UserRole.ADMIN Permission.CONTENT_DELETE_OWN = Ok true.
Proof.
  apply (admin_list_is_largest "influencer" Permission.CONTENT_DELETE_OWN).
  reflexivity.
Defined.

(** X2.  The engine does not tell a [user] from an [influencer]: with the
    same user id, the two roles get the same verdict on every resource and
    every action. *)
Theorem user_and_influencer_alike (uid e e' : string)
    (resource : option Resource) (action : Permission.t) :
  canAccessResource (mkUser uid e UserRole.USER) resource action
  = canAccessResource (mkUser uid e' UserRole.INFLUENCER) resource action.
Proof.
  assert (Hsame : roleHasPermission UserRole.USER action
                  = roleHasPermission UserRole.INFLUENCER action)
    by reflexivity.
  unfold canAccessResource, canAccessResource_with. cbn [role userId].
  change (isAdmin UserRole.USER) with false.
  change (isAdmin UserRole.INFLUENCER) with false.
  cbn iota. now rewrite Hsame.
Qed.

(** X3.  Outside the admin role, the only permission on resources of
    others is reading content: every permission a non-admin role holds is
    [own]-scoped or is [content:read:all]. *)
Theorem non_admin_reach (r : string) (p : Permission.t) :
  r <> UserRole.ADMIN ->
  roleHasPermission r p = Ok true ->
  scope p = Some ScopeOwn \/ p = Permission.CONTENT_READ_ALL.
Proof.
  intros Hna. unfold roleHasPermission. rewrite get_ROLE_PERMISSIONS.
  destruct (String.eqb UserRole.ADMIN r) eqn:Ha.
  { apply String.eqb_eq in Ha. congruence. }
  assert (Hlist : p ∈ user_permissions ->
                  scope p = Some ScopeOwn \/ p = Permission.CONTENT_READ_ALL).
  { unfold user_permissions. rewrite !elem_of_cons, !elem_of_nil.
    intros H.
    repeat (destruct H as [-> | H]; [(left; reflexivity) || (right; reflexivity) |]).
    destruct H. }
  repeat match goal with
         | |- context [if ?c then _ else _] => destruct c
         end;
    intros H; try discriminate H;
    injection H as H; apply array_includes_true in H; now apply Hlist.
Qed.

Lemma non_admin_reach_witness :
  scope Permission.USERS_WRITE_OWN = Some ScopeOwn
  \/ Permission.USERS_WRITE_OWN = Permission.CONTENT_READ_ALL.
Proof.
  apply (non_admin_reach "user" Permission.USERS_WRITE_OWN);
    [discriminate | reflexivity].
Defined.

(** X4.  The two copies of the table agree: when [getRolePermissions]
    returns a list for a role, [roleHasPermission] answers for that role
    by membership in this list. *)
Theorem getRolePermissions_agrees (r : string) (perms : list Permission.t)
    (p : Permission.t) :
  getRolePermissions r = PermissionArray perms ->
  roleHasPermission r p = Ok (array_includes perms p).
Proof.
  unfold getRolePermissions, roleHasPermission. fold ROLE_PERMISSIONS.
  destruct (get ROLE_PERMISSIONS r) as [l | name |].
  - now intros [= ->].
  - discriminate.
  - now intros [= <-].
Qed.

Lemma getRolePermissions_agrees_witness :
  roleHasPermission "influencer" Permission.USERS_DELETE_ALL
  = Ok (array_includes influencer_permissions Permission.USERS_DELETE_ALL).
Proof.
  apply (getRolePermissions_agrees "influencer" influencer_permissions
           Permission.USERS_DELETE_ALL).
  reflexivity.
Defined.

(** ** The engine *)

(** [isResourceOwner] answers [true] exactly when the owner id is given,
    equals the user id and is not the empty string. *)
Lemma isResourceOwner_true (uid : string) (owner : option string) :
  isResourceOwner uid owner = true
  <-> owner = Some uid /\ uid <> EmptyString.
Proof.
  unfold isResourceOwner. destruct owner as [[| c o] |];
    cbn [truthy_string negb].
  - split; [discriminate |]. intros [Ho Hne]. congruence.
  - rewrite String.eqb_eq. split.
    + intros ->. split; [reflexivity | discriminate].
    + intros [Ho _]. congruence.
  - split; [discriminate |]. intros [Ho _]. discriminate Ho.
Qed.

(** A grant to somebody who is not an admin, taken apart. *)
Lemma canAccessResource_grant_inv (u : User)
    (resource : option Resource) (action : Permission.t) :
  role u <> UserRole.ADMIN ->
  canAccessResource u resource action = Ok true ->
  roleHasPermission (role u) action = Ok true
  /\ (includes action ":own" = true ->
      exists r, resource = Some r
                /\ ownerId r = Some (userId u)
                /\ userId u <> EmptyString).
Proof.
  intros Hna Hgrant.
  destruct (roleHasPermission (role u) action) as [held | e] eqn:Hheld.
  - rewrite (canAccessResource_non_admin_unfold _ _ _ _ Hna Hheld) in Hgrant.
    injection Hgrant as Hgrant.
    apply andb_true_iff in Hgrant as [-> Hrest]. split; [reflexivity |].
    intros Hown. rewrite Hown in Hrest. cbn [negb orb] in Hrest.
    destruct resource as [[[o |]] |]; try discriminate Hrest.
    cbn [ownerId] in Hrest.
    apply andb_true_iff in Hrest as [Ht He].
    apply String.eqb_eq in He. subst o.
    exists (mkResource (Some (userId u))). repeat split.
    intros Hempty. rewrite Hempty in Ht. discriminate Ht.
  - unfold canAccessResource, canAccessResource_with in Hgrant.
    apply isAdmin_false in Hna. rewrite Hna, Hheld in Hgrant.
    discriminate Hgrant.
Qed.

(** X5.  The engine never grants more than the registry and ownership
    allow: a granted request comes from an admin, or the role holds the
    action and, when the action mentions [:own], the resource is there
    and owned by the (non-empty) user id. *)
Theorem canAccessResource_grant_sound (u : User)
    (resource : option Resource) (action : Permission.t) :
  canAccessResource u resource action = Ok true ->
  role u = UserRole.ADMIN
  \/ (roleHasPermission (role u) action = Ok true
      /\ (includes action ":own" = true ->
          exists r, resource = Some r
                    /\ ownerId r = Some (userId u)
                    /\ userId u <> EmptyString)).
Proof.
  intros Hgrant.
  destruct (String.eqb_spec (role u) UserRole.ADMIN) as [Ha | Hna].
  - now left.
  - right. now apply canAccessResource_grant_inv.
Qed.

Lemma canAccessResource_grant_sound_witness :
  let u := mkUser "u7" "ann@askmi.test" "user" in
  role u = UserRole.ADMIN
  \/ (roleHasPermission (role u) Permission.CONTENT_WRITE_OWN = Ok true
      /\ (includes Permission.CONTENT_WRITE_OWN ":own" = true ->
          exists r, Some (mkResource (Some "u7")) = Some r
                    /\ ownerId r = Some (userId u)
                    /\ userId u <> EmptyString)).
Proof.
  intros u.
  apply (canAccessResource_grant_sound u (Some (mkResource (Some "u7")))
           Permission.CONTENT_WRITE_OWN).
  reflexivity.
Defined.

(** X6.  The either-scope check, case by case: an admin is granted;
    anybody else is judged on the [own] action alone when they own the
    resource and on the [all] action alone when they do not (the resource
    is missing, has no owner id, or belongs to somebody else). *)
Theorem canAccessResourceOrOwn_cases (u : User) (resource : option Resource)
    (ownAction allAction : Permission.t) :
  (role u = UserRole.ADMIN ->
   canAccessResourceOrOwn u resource ownAction allAction = Ok true)
  /\ (role u <> UserRole.ADMIN ->
      (exists r, resource = Some r /\ ownerId r = Some (userId u)
                 /\ userId u <> EmptyString) ->
      canAccessResourceOrOwn u resource ownAction allAction
      = roleHasPermission (role u) ownAction)
  /\ (role u <> UserRole.ADMIN ->
      ~ (exists r, resource = Some r /\ ownerId r = Some (userId u)
                   /\ userId u <> EmptyString) ->
      canAccessResourceOrOwn u resource ownAction allAction
      = roleHasPermission (role u) allAction).
Proof.
  split; [| split].
  - intros Ha. unfold canAccessResourceOrOwn.
    apply isAdmin_true in Ha. now rewrite Ha.
  - intros Hna (r & -> & Hown & Hne).
    now apply canAccessResourceOrOwn_owner.
  - intros Hna Hnot. unfold canAccessResourceOrOwn.
    apply isAdmin_false in Hna. rewrite Hna.
    destruct resource as [r |]; [| reflexivity].
    destruct (isResourceOwner (userId u) (ownerId r)) eqn:Howner.
    + exfalso. apply Hnot. apply isResourceOwner_true in Howner as [Ho Hne].
      exists r. auto.
    + now rewrite andb_false_r.
Qed.

Lemma canAccessResourceOrOwn_cases_witness :
  let u := mkUser "u7" "ann@askmi.test" "user" in
  canAccessResourceOrOwn u (Some (mkResource (Some "u7")))
    Permission.CONTENT_WRITE_OWN Permission.CONTENT_WRITE_ALL
  = roleHasPermission "user" Permission.CONTENT_WRITE_OWN
  /\ canAccessResourceOrOwn u None
       Permission.CONTENT_WRITE_OWN Permission.CONTENT_WRITE_ALL
     = roleHasPermission "user" Permission.CONTENT_WRITE_ALL.
Proof.
  intros u.
  destruct (canAccessResourceOrOwn_cases u (Some (mkResource (Some "u7")))
              Permission.CONTENT_WRITE_OWN Permission.CONTENT_WRITE_ALL)
    as (_ & Hmine & _).
  destruct (canAccessResourceOrOwn_cases u None
              Permission.CONTENT_WRITE_OWN Permission.CONTENT_WRITE_ALL)
    as (_ & _ & Hnone).
  split.
  - apply Hmine; [discriminate |].
    exists (mkResource (Some "u7")). repeat split. discriminate.
  - apply Hnone; [discriminate |].
    intros (r & Hr & _). discriminate Hr.
Defined.

(** X7.  The two checks compose: when [canAccessResource] grants an
    action that mentions [:own], [canAccessResourceOrOwn] grants every
    pair that has this action as its [own] part. *)
Theorem own_grant_carries_over (u : User) (resource : option Resource)
    (ownAction allAction : Permission.t) :
  includes ownAction ":own" = true ->
  canAccessResource u resource ownAction = Ok true ->
  canAccessResourceOrOwn u resource ownAction allAction = Ok true.
Proof.
  intros Hown Hgrant.
  destruct (String.eqb_spec (role u) UserRole.ADMIN) as [Ha | Hna].
  - unfold canAccessResourceOrOwn. apply isAdmin_true in Ha.
    now rewrite Ha.
  - destruct (canAccessResource_grant_inv _ _ _ Hna Hgrant)
      as [Hheld Howner].
    destruct (Howner Hown) as (r & -> & Ho & Hne).
    now rewrite canAccessResourceOrOwn_owner.
Qed.

Lemma own_grant_carries_over_witness :
  canAccessResourceOrOwn (mkUser "u7" "ann@askmi.test" "user")
    (Some (mkResource (Some "u7")))
    Permission.CONTENT_DELETE_OWN Permission.CONTENT_DELETE_ALL = Ok true.
Proof.
  apply (own_grant_carries_over (mkUser "u7" "ann@askmi.test" "user")
           (Some (mkResource (Some "u7")))
           Permission.CONTENT_DELETE_OWN Permission.CONTENT_DELETE_ALL);
    reflexivity.
Defined.

(** ** The gates *)

(** X8.  [authorize] hands a request on exactly when it carries an
    identity whose role is one of the listed roles, and then hands it on
    unchanged. *)
Theorem authorize_pass_iff (roles : list string) (req req' : Request) :
  authorize roles req = Next req'
  <-> req' = req /\ exists u, user req = Some u /\ role u ∈ roles.
Proof.
  unfold authorize. destruct (user req) as [u |].
  - destruct (array_includes roles (role u)) eqn:Hin; cbn [negb].
    + apply array_includes_true in Hin. split.
      * intros [= <-]. eauto.
      * intros [-> _]. reflexivity.
    + apply array_includes_false in Hin. split; [discriminate |].
      intros [_ (u' & [= <-] & Hin')]. contradiction.
  - split; [discriminate |]. intros [_ (u' & Hu & _)]. discriminate Hu.
Qed.

(** X9.  [requireAnyRole] and [requireAllRoles] are [authorize] with
    ['admin'] added to the list: on every request the three hand on or
    answer alike. *)
Theorem requireAnyRole_as_authorize (roles : list string) (req : Request) :
  passes (requireAnyRole roles req)
  = passes (authorize (UserRole.ADMIN :: roles) req)
  /\ passes (requireAllRoles roles req)
     = passes (authorize (UserRole.ADMIN :: roles) req).
Proof.
  unfold requireAnyRole, requireAllRoles, authorize.
  destruct (user req) as [u |]; [| split; reflexivity].
  assert (Hcons : array_includes (UserRole.ADMIN :: roles) (role u)
                  = isAdmin (role u) || array_includes roles (role u)).
  { unfold array_includes, isAdmin.
    destruct (String.eqb_spec (role u) UserRole.ADMIN) as [He | Hne].
    - rewrite He. cbn [orb]. apply bool_decide_eq_true. left.
    - cbn [orb]. apply bool_decide_ext. rewrite elem_of_cons. tauto. }
  rewrite Hcons.
  destruct (isAdmin (role u)); [split; reflexivity |].
  cbn [orb]. destruct (array_includes roles (role u)); split; reflexivity.
Qed.

(** X10.  With an empty role list, [authorize] turns every authenticated
    request away with 403, while [requireAnyRole] and [requireAllRoles]
    still let admins, and only admins, through. *)
Theorem gates_on_empty_list (req : Request) (u : User) :
  user req = Some u ->
  (exists msg, authorize [] req = reject 403 msg)
  /\ passes (requireAnyRole [] req) = isAdmin (role u)
  /\ passes (requireAllRoles [] req) = isAdmin (role u).
Proof.
  intros Hu. unfold authorize, requireAnyRole, requireAllRoles.
  rewrite Hu.
  assert (Hnil : array_includes [] (role u) = false).
  { apply array_includes_false. apply not_elem_of_nil. }
  rewrite Hnil. cbn [negb].
  split; [eexists; reflexivity |].
  destruct (isAdmin (role u)); split; reflexivity.
Qed.

Lemma gates_on_empty_list_witness :
  (exists msg, authorize [] admin_request = reject 403 msg)
  /\ passes (requireAnyRole [] admin_request) = true
  /\ passes (requireAllRoles [] admin_request) = true.
Proof.
  apply (gates_on_empty_list admin_request
           (mkUser "u1" "root@askmi.test" "admin")).
  reflexivity.
Defined.

(** [requirePermission] on an authenticated request: an admin
    passes; anybody else passes when the registry grants the permission to
    the role, is answered 403 with the permission named in the message
    when the registry denies it, and the exception of the registry, if
    any, escapes. *)
Theorem requirePermission_cases (p : Permission.t) (req : Request)
    (u : User) :
  user req = Some u ->
  (role u = UserRole.ADMIN -> requirePermission p req = Ok (Next req))
  /\ (role u <> UserRole.ADMIN ->
      roleHasPermission (role u) p = Ok true ->
      requirePermission p req = Ok (Next req))
  /\ (role u <> UserRole.ADMIN ->
      roleHasPermission (role u) p = Ok false ->
      requirePermission p req
      = Ok (reject 403
              ("Insufficient permissions. Required permission: " +:+ p)))
  /\ (forall e, role u <> UserRole.ADMIN ->
      roleHasPermission (role u) p = Throw e ->
      requirePermission p req = Throw e).
Proof.
  intros Hu. unfold requirePermission. rewrite Hu.
  split; [| split; [| split]].
  - intros Ha. apply isAdmin_true in Ha. now rewrite Ha.
  - intros Hna Hheld. apply isAdmin_false in Hna. now rewrite Hna, Hheld.
  - intros Hna Hheld. apply isAdmin_false in Hna. now rewrite Hna, Hheld.
  - intros e Hna Hheld. apply isAdmin_false in Hna. now rewrite Hna, Hheld.
Qed.

Lemma requirePermission_cases_witness :
  requirePermission Permission.CONTENT_READ_ALL (profile_request "u7" ann)
  = Ok (Next (profile_request "u7" ann))
  /\ requirePermission Permission.USERS_READ_ALL (profile_request "u7" ann)
     = Ok (reject 403
             "Insufficient permissions. Required permission: users:read:all").
Proof.
  destruct (requirePermission_cases Permission.CONTENT_READ_ALL
              (profile_request "u7" ann) ann eq_refl) as (_ & Hyes & _).
  destruct (requirePermission_cases Permission.USERS_READ_ALL
              (profile_request "u7" ann) ann eq_refl) as (_ & _ & Hno & _).
  split.
  - apply Hyes; [discriminate | reflexivity].
  - apply Hno; [discriminate | reflexivity].
Defined.

(** X11.  The permission gate is no stricter than the engine: whenever
    [canAccessResource] grants an action to the identity of a request on
    some resource, [requirePermission] for this action hands the request
    on.  For an action that does not mention [:own] the two agree. *)
Theorem engine_grant_passes_gate (p : Permission.t) (req : Request)
    (u : User) (resource : option Resource) :
  user req = Some u ->
  (canAccessResource u resource p = Ok true ->
   requirePermission p req = Ok (Next req))
  /\ (includes p ":own" = false ->
      requirePermission p req = Ok (Next req) ->
      canAccessResource u resource p = Ok true).
Proof.
  intros Hu. unfold requirePermission. rewrite Hu.
  destruct (String.eqb_spec (role u) UserRole.ADMIN) as [Ha | Hna].
  - pose proof Ha as Ha'. apply isAdmin_true in Ha'. rewrite Ha'.
    split; [reflexivity |]. intros _ _.
    unfold canAccessResource, canAccessResource_with. now rewrite Ha'.
  - pose proof Hna as Hna'. apply isAdmin_false in Hna'. rewrite Hna'.
    split.
    + intros Hgrant.
      destruct (canAccessResource_grant_inv _ _ _ Hna Hgrant) as [Hheld _].
      now rewrite Hheld.
    + intros Hall Hpass.
      destruct (roleHasPermission (role u) p) as [[|] | e] eqn:Hheld;
        try discriminate Hpass.
      rewrite (canAccessResource_non_admin_unfold _ _ _ _ Hna Hheld).
      now rewrite Hall.
Qed.

Lemma engine_grant_passes_gate_witness :
  requirePermission Permission.USERS_WRITE_OWN (profile_request "u7" ann)
  = Ok (Next (profile_request "u7" ann)).
Proof.
  destruct (engine_grant_passes_gate Permission.USERS_WRITE_OWN
              (profile_request "u7" ann) ann
              (Some (mkResource (Some "u7"))) eq_refl) as [H _].
  apply H. reflexivity.
Defined.

(** X12.  In [requireOwnershipOrRole] the route parameter wins over the
    body: when [req.params[k]] is truthy, the verdict does not depend on
    the body, so a caller cannot redirect the ownership test through
    [req.body[k]]. *)
Theorem route_parameter_wins (resourceIdParam : option string)
    (allowedRoles : list string) (req : Request)
    (b : option (string -> value)) :
  truthy (params req (default "id" resourceIdParam)) = true ->
  requireOwnershipOrRole resourceIdParam allowedRoles (set_body req b)
  = match requireOwnershipOrRole resourceIdParam allowedRoles req with
    | Ok (Next _) => Ok (Next (set_body req b))
    | Ok (Respond res) => Ok (Respond res)
    | Throw e => Throw e
    end.
Proof.
  intros Ht. unfold requireOwnershipOrRole, param_or_body.
  cbn [user params body set_body]. rewrite Ht. cbn [bind].
  destruct (user req) as [u |]; [| reflexivity].
  destruct (isAdmin (role u)); [reflexivity |].
  destruct ((0 <? List.length allowedRoles)%nat
            && array_includes allowedRoles (role u)); [reflexivity |].
  destruct (as_string _) as [rid |]; [| reflexivity].
  destruct (negb (truthy_string rid)); [reflexivity |].
  now destruct (String.eqb rid (userId u)).
Qed.

Lemma route_parameter_wins_witness :
  requireOwnershipOrRole (Some "id") []
    (set_body (profile_request "u9" ann)
       (Some (fun k => if String.eqb k "id" then VStr "u7" else VUndefined)))
  = Ok (reject 403 MSG_NOT_OWNER).
Proof.
  apply (route_parameter_wins (Some "id") [] (profile_request "u9" ann)
           (Some (fun k =>
                    if String.eqb k "id" then VStr "u7" else VUndefined))).
  reflexivity.
Defined.

(** X13.  [requireOwnershipOrRole] hands a request on only unchanged and
    only for an identity that is an admin, has a role of the bypass list,
    or has a non-empty user id equal to the extracted identifier. *)
Theorem requireOwnershipOrRole_pass_sound (resourceIdParam : option string)
    (allowedRoles : list string) (req req' : Request) :
  requireOwnershipOrRole resourceIdParam allowedRoles req = Ok (Next req') ->
  req' = req
  /\ exists u, user req = Some u
     /\ (role u = UserRole.ADMIN
         \/ role u ∈ allowedRoles
         \/ (extracted_resource_id resourceIdParam req
             = Ok (VStr (userId u))
             /\ userId u <> EmptyString)).
Proof.
  unfold requireOwnershipOrRole, extracted_resource_id.
  destruct (user req) as [u |]; [| discriminate].
  destruct (isAdmin (role u)) eqn:Ha.
  { intros [= <-]. apply isAdmin_true in Ha. eauto. }
  destruct (array_includes allowedRoles (role u)) eqn:Hin.
  { apply array_includes_true in Hin.
    destruct (0 <? List.length allowedRoles)%nat eqn:Hlen; cbn [andb].
    - intros [= <-]. eauto 6.
    - destruct allowedRoles;
        [now apply elem_of_nil in Hin | discriminate Hlen]. }
  rewrite andb_false_r.
  destruct (param_or_body req _) as [v | e]; cbn [bind]; [| discriminate].
  destruct (first_if_array v) as [| | | | rid | |]; cbn [as_string];
    try discriminate.
  destruct rid as [| c rid]; cbn [truthy_string negb]; [discriminate |].
  destruct (String.eqb_spec (String c rid) (userId u)) as [He | Hne];
    [| discriminate].
  intros [= <-]. split; [reflexivity |]. exists u. split; [reflexivity |].
  right; right. rewrite <- He. split; [reflexivity | discriminate].
Qed.

Lemma requireOwnershipOrRole_pass_sound_witness :
  profile_request "u7" ann = profile_request "u7" ann
  /\ exists u, user (profile_request "u7" ann) = Some u
     /\ (role u = UserRole.ADMIN
         \/ role u ∈ ["admin"]
         \/ (extracted_resource_id (Some "id") (profile_request "u7" ann)
             = Ok (VStr (userId u))
             /\ userId u <> EmptyString)).
Proof.
  apply (requireOwnershipOrRole_pass_sound (Some "id") ["admin"]
           (profile_request "u7" ann) (profile_request "u7" ann)).
  reflexivity.
Defined.

(** ** Identity resolution, all paths *)

(** [authenticate] without its [try]: every path and its answer. *)
Lemma authenticate_paths (verifyToken : string -> option Jwt.Decoded)
    (prisma : Prisma) (req : Request) :
  authenticate verifyToken prisma req =
    match authorization req with
    | None => reject 401 MSG_NO_TOKEN
    | Some h =>
        if truthy_string h then
          match split " " h with
          | [scheme; token] =>
              if String.eqb scheme "Bearer" then
                match verifyToken token with
                | None => reject 401 MSG_INVALID_TOKEN
                | Some decoded =>
                    match findUnique prisma
                            (JWTPayload.userId (Jwt.claims decoded)) with
                    | Throw _ => reject 401 MSG_AUTH_FAILED
                    | Ok None => reject 401 MSG_USER_NOT_FOUND
                    | Ok (Some row) =>
                        if cleared row
                        then Next (set_user req (identity_of row))
                        else reject 403 MSG_PENDING_APPROVAL
                    end
                end
              else reject 401 MSG_INVALID_FORMAT
          | _ => reject 401 MSG_INVALID_FORMAT
          end
        else reject 401 MSG_NO_TOKEN
    end.
Proof.
  unfold authenticate, cleared, identity_of.
  destruct (authorization req) as [h |]; [| reflexivity].
  destruct (truthy_string h); [| reflexivity]. cbn [negb].
  destruct (split " " h) as [| scheme [| token [| extra rest]]];
    try reflexivity.
  destruct (String.eqb scheme "Bearer"); [| reflexivity]. cbn [negb].
  destruct (verifyToken token) as [decoded |]; [| reflexivity].
  destruct (findUnique prisma _) as [[row |] | e]; try reflexivity.
  cbn [bind try_catch].
  now destruct (String.eqb (UserRow.role row) "influencer"
                && negb (UserRow.isApproved row)).
Qed.

Lemma findUnique_found (prisma : Prisma) (id : string) (row : UserRow.t) :
  findUnique prisma id = Ok (Some row) ->
  In row (users prisma) /\ UserRow.id row = id.
Proof.
  unfold findUnique. destruct (reachable prisma); [| discriminate].
  intros [= Hfind]. apply find_some in Hfind as [Hin Heq].
  split; [exact Hin | now apply String.eqb_eq].
Qed.

(** X14.  [authenticate] hands a request on only when the header has the
    two parts [Bearer <token>], the token verifies, the store holds a row
    under the user id of the token, and this row is not an unapproved
    influencer; the identity attached is the one of the stored row. *)
Theorem authenticate_pass_sound (verifyToken : string -> option Jwt.Decoded)
    (prisma : Prisma) (req req' : Request) :
  authenticate verifyToken prisma req = Next req' ->
  exists h token decoded row,
    authorization req = Some h
    /\ split " " h = ["Bearer"; token]
    /\ verifyToken token = Some decoded
    /\ In row (users prisma)
    /\ UserRow.id row = JWTPayload.userId (Jwt.claims decoded)
    /\ (UserRow.role row = "influencer" -> UserRow.isApproved row = true)
    /\ req' = set_user req (identity_of row).
Proof.
  rewrite authenticate_paths.
  destruct (authorization req) as [h |]; [| discriminate].
  destruct (truthy_string h); [| discriminate].
  destruct (split " " h) as [| scheme [| token [| extra rest]]] eqn:Hsplit;
    try discriminate.
  destruct (String.eqb_spec scheme "Bearer") as [-> | _]; [| discriminate].
  destruct (verifyToken token) as [decoded |] eqn:Hv; [| discriminate].
  destruct (findUnique prisma _) as [[row |] | e] eqn:Hrow;
    try discriminate.
  destruct (cleared row) eqn:Hc; [| discriminate].
  intros [= <-]. apply findUnique_found in Hrow as [Hin Hid].
  exists h, token, decoded, row. repeat split; auto.
  intros Hrole. unfold cleared in Hc. rewrite Hrole in Hc.
  rewrite String.eqb_refl in Hc.
  now destruct (UserRow.isApproved row).
Qed.

Lemma authenticate_pass_sound_witness :
  exists h token decoded row,
    authorization (bearer_request "Bearer t1") = Some h
    /\ split " " h = ["Bearer"; token]
    /\ two_tokens token = Some decoded
    /\ In row (users sample_store)
    /\ UserRow.id row = JWTPayload.userId (Jwt.claims decoded)
    /\ (UserRow.role row = "influencer" -> UserRow.isApproved row = true)
    /\ set_user (bearer_request "Bearer t1")
         (mkUser "u1" "root@askmi.test" "admin")
       = set_user (bearer_request "Bearer t1") (identity_of row).
Proof.
  apply (authenticate_pass_sound two_tokens sample_store
           (bearer_request "Bearer t1")
           (set_user (bearer_request "Bearer t1")
              (mkUser "u1" "root@askmi.test" "admin"))).
  reflexivity.
Defined.

(** X15.  The token tells [authenticate] who is asking and nothing more:
    two verifiers that yield the same user id for every token give the
    same answer on every request and store.  The email and role of the
    token are not used; those attached come from the store. *)
Theorem authenticate_reads_user_id_only
    (verifyToken verifyToken' : string -> option Jwt.Decoded)
    (prisma : Prisma) (req : Request) :
  (forall token,
     (fun d => JWTPayload.userId (Jwt.claims d)) <$> verifyToken token
     = (fun d => JWTPayload.userId (Jwt.claims d)) <$> verifyToken' token) ->
  authenticate verifyToken prisma req = authenticate verifyToken' prisma req.
Proof.
  intros Hsame. rewrite !authenticate_paths.
  destruct (authorization req) as [h |]; [| reflexivity].
  destruct (truthy_string h); [| reflexivity].
  destruct (split " " h) as [| scheme [| token [| extra rest]]];
    try reflexivity.
  destruct (String.eqb scheme "Bearer"); [| reflexivity].
  specialize (Hsame token).
  destruct (verifyToken token) as [d |], (verifyToken' token) as [d' |];
    cbn in Hsame; try discriminate Hsame; [| reflexivity].
  injection Hsame as ->. reflexivity.
Qed.

Lemma authenticate_reads_user_id_only_witness :
  authenticate sample_verifyToken sample_store sample_request
  = authenticate stale_token sample_store sample_request.
Proof.
  apply (authenticate_reads_user_id_only sample_verifyToken stale_token
           sample_store sample_request).
  intros token. unfold sample_verifyToken, stale_token.
  destruct (String.eqb token "t5"); reflexivity.
Defined.

(** X16.  A well-formed header does not get past [authenticate] when the
    token fails verification (401, invalid token, whatever the store
    holds), when the store does not answer (401, authentication failed)
    or when the store has no row for the user id, for instance because
    the account was deleted after the token was issued (401, user not
    found). *)
Theorem authenticate_failures (verifyToken : string -> option Jwt.Decoded)
    (prisma : Prisma) (req : Request) (h token : string) :
  authorization req = Some h ->
  split " " h = ["Bearer"; token] ->
  (verifyToken token = None ->
   authenticate verifyToken prisma req = reject 401 MSG_INVALID_TOKEN)
  /\ (forall decoded, verifyToken token = Some decoded ->
      reachable prisma = false ->
      authenticate verifyToken prisma req = reject 401 MSG_AUTH_FAILED)
  /\ (forall decoded, verifyToken token = Some decoded ->
      findUnique prisma (JWTPayload.userId (Jwt.claims decoded)) = Ok None ->
      authenticate verifyToken prisma req = reject 401 MSG_USER_NOT_FOUND).
Proof.
  intros Hh Hsplit. rewrite authenticate_paths, Hh.
  assert (Ht : truthy_string h = true).
  { destruct h; [discriminate Hsplit | reflexivity]. }
  rewrite Ht, Hsplit, String.eqb_refl.
  split; [| split].
  - now intros ->.
  - intros decoded -> Hdown. unfold findUnique. now rewrite Hdown.
  - now intros decoded -> ->.
Qed.

Lemma authenticate_failures_witness :
  authenticate two_tokens sample_store (bearer_request "Bearer t9")
  = reject 401 MSG_INVALID_TOKEN
  /\ authenticate two_tokens (mkPrisma (users sample_store) false)
       (bearer_request "Bearer t1")
     = reject 401 MSG_AUTH_FAILED
  /\ authenticate two_tokens (delete_user sample_store "u1")
       (bearer_request "Bearer t1")
     = reject 401 MSG_USER_NOT_FOUND.
Proof.
  destruct (authenticate_failures two_tokens sample_store
              (bearer_request "Bearer t9") "Bearer t9" "t9"
              eq_refl eq_refl) as (Hbad & _ & _).
  destruct (authenticate_failures two_tokens
              (mkPrisma (users sample_store) false)
              (bearer_request "Bearer t1") "Bearer t1" "t1"
              eq_refl eq_refl) as (_ & Hdown & _).
  destruct (authenticate_failures two_tokens (delete_user sample_store "u1")
              (bearer_request "Bearer t1") "Bearer t1" "t1"
              eq_refl eq_refl) as (_ & _ & Hgone).
  split; [apply Hbad; reflexivity |].
  split; [apply (Hdown admin_decoded); reflexivity |].
  apply (Hgone admin_decoded); reflexivity.
Defined.

(** X17.  Every header that is not empty and does not split at its spaces
    into exactly [Bearer] and one more part is answered 401 with the
    invalid-format reason, whatever the verifier and the store: a
    lower-case scheme, a doubled space and a second token all end here. *)
Theorem authenticate_invalid_format
    (verifyToken : string -> option Jwt.Decoded) (prisma : Prisma)
    (req : Request) (h : string) :
  authorization req = Some h ->
  h <> EmptyString ->
  (forall token, split " " h <> ["Bearer"; token]) ->
  authenticate verifyToken prisma req = reject 401 MSG_INVALID_FORMAT.
Proof.
  intros Hh Hne Hshape. rewrite authenticate_paths, Hh.
  assert (Ht : truthy_string h = true)
    by (destruct h; [contradiction | reflexivity]).
  rewrite Ht.
  destruct (split " " h) as [| scheme [| token [| extra rest]]];
    try reflexivity.
  destruct (String.eqb_spec scheme "Bearer") as [-> | _]; [| reflexivity].
  now specialize (Hshape token).
Qed.

Lemma authenticate_invalid_format_witness :
  authenticate two_tokens sample_store (bearer_request "bearer t1")
  = reject 401 MSG_INVALID_FORMAT
  /\ authenticate two_tokens sample_store (bearer_request "Bearer  t1")
     = reject 401 MSG_INVALID_FORMAT
  /\ authenticate two_tokens sample_store (bearer_request "Bearer t1 t5")
     = reject 401 MSG_INVALID_FORMAT.
Proof.
  split; [| split].
  - apply (authenticate_invalid_format two_tokens sample_store
             (bearer_request "bearer t1") "bearer t1");
      [reflexivity | discriminate | intros token; discriminate].
  - apply (authenticate_invalid_format two_tokens sample_store
             (bearer_request "Bearer  t1") "Bearer  t1");
      [reflexivity | discriminate | intros token; discriminate].
  - apply (authenticate_invalid_format two_tokens sample_store
             (bearer_request "Bearer t1 t5") "Bearer t1 t5");
      [reflexivity | discriminate | intros token; discriminate].
Defined.

(** X18.  Whenever [authenticate] answers instead of handing on, the
    answer has [success: false] and status 401, except for the
    pending-approval answer, which is the only 403. *)
Theorem authenticate_answers (verifyToken : string -> option Jwt.Decoded)
    (prisma : Prisma) (req : Request) (res : Response) :
  authenticate verifyToken prisma req = Respond res ->
  success res = false
  /\ (status res = 401
      \/ (status res = 403 /\ message res = MSG_PENDING_APPROVAL)).
Proof.
  rewrite authenticate_paths.
  repeat match goal with
         | |- context [match ?x with _ => _ end] => destruct x
         end;
    intros [= <-]; cbn [success status message]; auto.
Qed.

Lemma authenticate_answers_witness :
  success (mkResponse 403 false MSG_PENDING_APPROVAL) = false
  /\ (status (mkResponse 403 false MSG_PENDING_APPROVAL) = 401
      \/ (status (mkResponse 403 false MSG_PENDING_APPROVAL) = 403
          /\ message (mkResponse 403 false MSG_PENDING_APPROVAL)
             = MSG_PENDING_APPROVAL)).
Proof.
  apply (authenticate_answers sample_verifyToken sample_store
           sample_request).
  reflexivity.
Defined.

(** ** Optional and token-only identity resolution *)

(** X19.  [optionalAuth] never answers: it hands the request on, with the
    claims of the token attached when the header has the two parts
    [Bearer <token>] and the token verifies, and untouched in every other
    case.  It does not read the store, so approval is not checked. *)
Theorem optionalAuth_cases (verifyToken : string -> option Jwt.Decoded)
    (req : Request) :
  (exists h token decoded,
     authorization req = Some h
     /\ split " " h = ["Bearer"; token]
     /\ verifyToken token = Some decoded
     /\ optionalAuth verifyToken req
        = Next (set_user req (identity_of_claims decoded)))
  \/ ((forall h token,
         authorization req = Some h ->
         split " " h = ["Bearer"; token] ->
         verifyToken token = None)
      /\ optionalAuth verifyToken req = Next req).
Proof.
  unfold optionalAuth, identity_of_claims.
  destruct (authorization req) as [h |];
    [| right; split; [discriminate | reflexivity]].
  destruct (truthy_string h) eqn:Ht; cbn [negb].
  - destruct (split " " h) as [| scheme [| token [| extra rest]]] eqn:Hs;
      try (right; split; [intros h' t [= <-]; rewrite Hs; discriminate
                          | reflexivity]).
    destruct (String.eqb_spec scheme "Bearer") as [-> | Hne].
    + destruct (verifyToken token) as [decoded |] eqn:Hv.
      * left. exists h, token, decoded. auto.
      * right. split; [| reflexivity].
        intros h' t [= <-]. rewrite Hs. now intros [= <-].
    + right. split; [| reflexivity].
      intros h' t [= <-]. rewrite Hs. intros [= He _]. congruence.
  - right. split; [| reflexivity].
    intros h' t [= <-]. destruct h; [discriminate | discriminate Ht].
Qed.

(** X20.  The first [authenticate] of the file and [optionalAuth] resolve
    the same identity: when the former hands a request on, the latter
    hands on the very same request; when the former answers, the latter
    hands the request on untouched. *)
Theorem token_only_and_optional (verifyToken : string -> option Jwt.Decoded)
    (req : Request) :
  match authenticate_token_only verifyToken req with
  | Next req' => optionalAuth verifyToken req = Next req'
  | Respond _ => optionalAuth verifyToken req = Next req
  end.
Proof.
  unfold authenticate_token_only, optionalAuth.
  destruct (authorization req) as [h |]; [| reflexivity].
  destruct (truthy_string h); cbn [negb try_catch]; [| reflexivity].
  destruct (split " " h) as [| scheme [| token [| extra rest]]];
    try reflexivity.
  destruct (String.eqb scheme "Bearer"); cbn [negb]; [| reflexivity].
  now destruct (verifyToken token).
Qed.

(** X21.  The approval-aware [authenticate] turns away everything the
    first version turned away, with the same answer; and when it hands a
    request on, the first version hands it on too, for the same user
    id. *)
Theorem approval_aware_is_stricter
    (verifyToken : string -> option Jwt.Decoded) (prisma : Prisma)
    (req : Request) :
  (forall res, authenticate_token_only verifyToken req = Respond res ->
               authenticate verifyToken prisma req = Respond res)
  /\ (forall req', authenticate verifyToken prisma req = Next req' ->
        exists req'' u u',
          authenticate_token_only verifyToken req = Next req''
          /\ user req' = Some u /\ user req'' = Some u'
          /\ userId u = userId u').
Proof.
  rewrite authenticate_paths. unfold authenticate_token_only.
  destruct (authorization req) as [h |];
    [| split; [now intros res [= <-] | discriminate]].
  destruct (truthy_string h); cbn [negb try_catch];
    [| split; [now intros res [= <-] | discriminate]].
  destruct (split " " h) as [| scheme [| token [| extra rest]]];
    try (split; [now intros res [= <-] | discriminate]).
  destruct (String.eqb scheme "Bearer"); cbn [negb];
    [| split; [now intros res [= <-] | discriminate]].
  destruct (verifyToken token) as [decoded |];
    [| split; [now intros res [= <-] | discriminate]].
  split; [discriminate |].
  destruct (findUnique prisma _) as [[row |] | e] eqn:Hrow;
    try discriminate.
  destruct (cleared row); [| discriminate].
  intros req' [= <-]. apply findUnique_found in Hrow as [_ Hid].
  eexists _, _, _. split; [reflexivity |]. cbn [user set_user].
  split; [reflexivity | split; [reflexivity |]].
  exact Hid.
Qed.

(** ** Routes of src/routes/user.ts *)

(** X22.  A route guarded by [authenticate] and then [authorize(...roles)],
    as the admin routes are, hands a request on to its handler only for a
    stored user whose stored role is one of the listed roles; the role
    written in the token does not count. *)
Theorem guarded_route_role (verifyToken : string -> option Jwt.Decoded)
    (prisma : Prisma) (roles : list string) (req req' : Request) :
  and_then (authenticate verifyToken prisma) (authorize roles) req
  = Next req' ->
  exists row, In row (users prisma)
              /\ UserRow.role row ∈ roles
              /\ user req' = Some (identity_of row).
Proof.
  unfold and_then. rewrite authenticate_paths.
  destruct (authorization req) as [h |]; [| discriminate].
  destruct (truthy_string h); [| discriminate].
  destruct (split " " h) as [| scheme [| token [| extra rest]]];
    try discriminate.
  destruct (String.eqb scheme "Bearer"); [| discriminate].
  destruct (verifyToken token) as [decoded |]; [| discriminate].
  destruct (findUnique prisma _) as [[row |] | e] eqn:Hrow;
    try discriminate.
  destruct (cleared row); [| discriminate].
  unfold authorize. cbn [user set_user].
  destruct (array_includes roles (role (identity_of row))) eqn:Hin;
    cbn [negb]; [| discriminate].
  intros [= <-]. apply findUnique_found in Hrow as [Hrow _].
  apply array_includes_true in Hin. exists row. auto.
Qed.

Lemma guarded_route_role_witness :
  exists row, In row (users sample_store)
              /\ UserRow.role row ∈ ["admin"]
              /\ user (set_user (bearer_request "Bearer t1")
                         (mkUser "u1" "root@askmi.test" "admin"))
                 = Some (identity_of row).
Proof.
  apply (guarded_route_role two_tokens sample_store ["admin"]
           (bearer_request "Bearer t1")
           (set_user (bearer_request "Bearer t1")
              (mkUser "u1" "root@askmi.test" "admin"))).
  reflexivity.
Defined.

(** X23.  A route guarded by [authenticate] and then
    [requireOwnershipOrRole('id', 'admin')], as [GET /:id] and [PUT /:id]
    are, reaches its handler only for a stored admin or for the stored
    user whose id is the (non-empty) route parameter. *)
Theorem guarded_route_owner (verifyToken : string -> option Jwt.Decoded)
    (prisma : Prisma) (req req' : Request) (id : string) :
  params req "id" = VStr id ->
  id <> EmptyString ->
  and_then_throwing (authenticate verifyToken prisma)
    (requireOwnershipOrRole (Some "id") ["admin"]) req = Ok (Next req') ->
  exists row, In row (users prisma)
              /\ user req' = Some (identity_of row)
              /\ (UserRow.role row = "admin" \/ UserRow.id row = id).
Proof.
  intros Hid Hne. unfold and_then_throwing. rewrite authenticate_paths.
  assert (Ht : truthy_string id = true)
    by (destruct id; [contradiction | reflexivity]).
  destruct (authorization req) as [h |]; [| discriminate].
  destruct (truthy_string h); [| discriminate].
  destruct (split " " h) as [| scheme [| token [| extra rest]]];
    try discriminate.
  destruct (String.eqb scheme "Bearer"); [| discriminate].
  destruct (verifyToken token) as [decoded |]; [| discriminate].
  destruct (findUnique prisma _) as [[row |] | e] eqn:Hrow;
    try discriminate.
  destruct (cleared row); [| discriminate].
  apply findUnique_found in Hrow as [Hrow _].
  destruct (String.eqb_spec (UserRow.role row) "admin") as [Ha | Hna].
  - unfold requireOwnershipOrRole. cbn [user set_user identity_of role].
    rewrite Ha. change (isAdmin "admin") with true. cbn iota.
    intros [= <-]. exists row. auto.
  - assert (Hout : role (identity_of row) ∉ ["admin"]).
    { cbn [identity_of role]. rewrite elem_of_cons, elem_of_nil. tauto. }
    rewrite (requireOwnershipOrRole_ownership (Some "id") ["admin"]
               (set_user req (identity_of row)) (identity_of row)
               eq_refl Hna Hout).
    unfold extracted_resource_id, param_or_body.
    change (default "id" (Some "id")) with "id".
    cbn [params set_user body]. rewrite Hid.
    cbn [truthy]. rewrite Ht. cbn [bind first_if_array]. rewrite Ht.
    cbn [negb userId identity_of].
    destruct (String.eqb_spec id (UserRow.id row)) as [He | Hne'];
      [| discriminate].
    intros [= <-]. exists row. auto.
Qed.

Lemma guarded_route_owner_witness :
  exists row, In row (users sample_store)
              /\ user (set_user (request_for "Bearer t1" "u5")
                         (mkUser "u1" "root@askmi.test" "admin"))
                 = Some (identity_of row)
              /\ (UserRow.role row = "admin" \/ UserRow.id row = "u5").
Proof.
  apply (guarded_route_owner two_tokens sample_store
           (request_for "Bearer t1" "u5")
           (set_user (request_for "Bearer t1" "u5")
              (mkUser "u1" "root@askmi.test" "admin")) "u5");
    [reflexivity | discriminate | reflexivity].
Defined.

(** Looking a key up after a row-wise update that keeps the ids. *)
Lemma find_map_keeps_id (f : UserRow.t -> UserRow.t) (k : string)
    (rows : list UserRow.t) :
  (forall row, UserRow.id (f row) = UserRow.id row) ->
  find (fun row => String.eqb (UserRow.id row) k) (map f rows)
  = f <$> find (fun row => String.eqb (UserRow.id row) k) rows.
Proof.
  intros Hid. induction rows as [| row rows IH]; [reflexivity |].
  cbn [map find]. rewrite Hid.
  destruct (String.eqb (UserRow.id row) k); [reflexivity | exact IH].
Qed.

Lemma approve_found (prisma : Prisma) (id : string) (row : UserRow.t) :
  findUnique prisma id = Ok (Some row) ->
  findUnique (approve prisma id) id = Ok (Some (approved row)).
Proof.
  intros Hrow. pose proof (findUnique_found _ _ _ Hrow) as [_ Hid].
  unfold findUnique, approve in *. cbn [reachable users].
  destruct (reachable prisma); [| discriminate].
  injection Hrow as Hrow.
  rewrite find_map_keeps_id by (intros r; now destruct (String.eqb _ id)).
  rewrite Hrow. cbn [fmap option_fmap option_map].
  apply String.eqb_eq in Hid. now rewrite Hid.
Qed.

Lemma approve_elsewhere (prisma : Prisma) (id id' : string) :
  id' <> id ->
  findUnique (approve prisma id) id' = findUnique prisma id'.
Proof.
  intros Hne. unfold findUnique, approve. cbn [reachable users].
  destruct (reachable prisma); [| reflexivity]. f_equal.
  rewrite find_map_keeps_id by (intros r; now destruct (String.eqb _ id)).
  destruct (find _ (users prisma)) as [row |] eqn:Hfind; [| reflexivity].
  apply find_some in Hfind as [_ Hid]. apply String.eqb_eq in Hid.
  cbn [fmap option_fmap option_map].
  assert (He : String.eqb (UserRow.id row) id = false)
    by (apply String.eqb_neq; congruence).
  now rewrite He.
Qed.

(** X24.  The write of the approval route reads back: after
    [approve prisma id] the row found under [id] is the former row with
    [isApproved] set, and the row found under any other id is the one
    found before. *)
Theorem approve_reads_back (prisma : Prisma) (id : string)
    (row : UserRow.t) :
  findUnique prisma id = Ok (Some row) ->
  findUnique (approve prisma id) id = Ok (Some (approved row))
  /\ forall id', id' <> id ->
       findUnique (approve prisma id) id' = findUnique prisma id'.
Proof.
  intros Hrow. split; [now apply approve_found |].
  intros id' Hne. now apply approve_elsewhere.
Qed.

Lemma approve_reads_back_witness :
  findUnique (approve sample_store "u5") "u5"
  = Ok (Some (UserRow.mk "u5" "ivy@askmi.test" "influencer" true))
  /\ forall id', id' <> "u5" ->
       findUnique (approve sample_store "u5") id'
       = findUnique sample_store id'.
Proof.
  apply (approve_reads_back sample_store "u5"
           (UserRow.mk "u5" "ivy@askmi.test" "influencer" false)).
  reflexivity.
Defined.

(** The approval handler without its [try], once the id is read. *)
Lemma approve_influencer_handler_paths (prisma : Prisma) (req : Request)
    (id : string) :
  where_id req = Ok id ->
  approve_influencer_handler prisma req =
    match findUnique prisma id with
    | Throw _ =>
        (prisma, failure 500 "An error occurred while approving influencer")
    | Ok None => (prisma, failure 404 "User not found")
    | Ok (Some row) =>
        if negb (String.eqb (UserRow.role row) "influencer") then
          (prisma, failure 400 "User is not an influencer")
        else if UserRow.isApproved row then
          (prisma, failure 400 "Influencer is already approved")
        else
          (approve prisma id,
           mkReply 200 true "Influencer approved successfully"
             (Some (approved row)))
    end.
Proof.
  intros Hid. unfold approve_influencer_handler. rewrite Hid. cbn [bind].
  destruct (findUnique prisma id) as [[row |] | e]; try reflexivity.
  cbn [bind].
  destruct (negb (String.eqb (UserRow.role row) "influencer"));
    [reflexivity |].
  now destruct (UserRow.isApproved row).
Qed.

(** A successful approval, taken apart. *)
Lemma approve_influencer_handler_ok (prisma prisma' : Prisma)
    (req : Request) (reply : Reply) :
  approve_influencer_handler prisma req = (prisma', reply) ->
  reply_status reply = 200 ->
  exists id row,
    where_id req = Ok id
    /\ findUnique prisma id = Ok (Some row)
    /\ UserRow.role row = "influencer"
    /\ UserRow.isApproved row = false
    /\ prisma' = approve prisma id
    /\ reply = mkReply 200 true "Influencer approved successfully"
                 (Some (approved row)).
Proof.
  destruct (where_id req) as [id | e] eqn:Hid.
  - rewrite (approve_influencer_handler_paths _ _ _ Hid).
    destruct (findUnique prisma id) as [[row |] | e] eqn:Hrow;
      try (intros [= <- <-]; discriminate).
    destruct (String.eqb_spec (UserRow.role row) "influencer")
      as [Hrole | Hrole]; cbn [negb];
      [| intros [= <- <-]; discriminate].
    destruct (UserRow.isApproved row) eqn:Happ;
      [intros [= <- <-]; discriminate |].
    intros [= <- <-] _. exists id, row. auto 10.
  - unfold approve_influencer_handler. rewrite Hid. cbn [bind try_catch].
    intros [= <- <-]. discriminate.
Qed.


(** X26.  Approving twice does nothing more: after a request that was
    answered 200, the same request on the new store is answered 400,
    already approved, and the store stays as the first request left
    it. *)
Theorem approve_twice (prisma prisma' : Prisma) (req : Request)
    (reply : Reply) :
  approve_influencer_handler prisma req = (prisma', reply) ->
  reply_status reply = 200 ->
  approve_influencer_handler prisma' req
  = (prisma', failure 400 "Influencer is already approved").
Proof.
  intros Hrun Hok.
  destruct (approve_influencer_handler_ok _ _ _ _ Hrun Hok)
    as (id & row & Hid & Hrow & Hrole & _ & -> & _).
  rewrite (approve_influencer_handler_paths _ _ _ Hid).
  rewrite (approve_found _ _ _ Hrow).
  cbn [approved UserRow.role UserRow.isApproved].
  rewrite Hrole. reflexivity.
Qed.

Lemma approve_twice_witness :
  approve_influencer_handler (approve sample_store "u5")
    (request_for "Bearer t1" "u5")
  = (approve sample_store "u5",
     failure 400 "Influencer is already approved").
Proof.
  apply (approve_twice sample_store (approve sample_store "u5")
           (request_for "Bearer t1" "u5")
           (mkReply 200 true "Influencer approved successfully"
              (Some (UserRow.mk "u5" "ivy@askmi.test" "influencer" true))));
    reflexivity.
Defined.

(** X27.  Approval opens the gate: when the approval handler has answered
    200 for an id, a request whose token verifies to this user id, which
    [authenticate] answered 403 on the old store, is handed on by
    [authenticate] on the new store, as an influencer with this id. *)
Theorem approval_opens_gate (prisma prisma' : Prisma) (areq : Request)
    (reply : Reply) (id : string)
    (verifyToken : string -> option Jwt.Decoded) (req : Request)
    (h token : string) (decoded : Jwt.Decoded) :
  approve_influencer_handler prisma areq = (prisma', reply) ->
  reply_status reply = 200 ->
  where_id areq = Ok id ->
  authorization req = Some h ->
  split " " h = ["Bearer"; token] ->
  verifyToken token = Some decoded ->
  JWTPayload.userId (Jwt.claims decoded) = id ->
  authenticate verifyToken prisma req = reject 403 MSG_PENDING_APPROVAL
  /\ exists e,
       authenticate verifyToken prisma' req
       = Next (set_user req (mkUser id e "influencer")).
Proof.
  intros Hrun Hok Hid Hh Hsplit Hv Hsub.
  destruct (approve_influencer_handler_ok _ _ _ _ Hrun Hok)
    as (id' & row & Hid' & Hrow & Hrole & Happ & -> & _).
  rewrite Hid in Hid'. injection Hid' as <-.
  assert (Ht : truthy_string h = true).
  { destruct h; [discriminate Hsplit | reflexivity]. }
  pose proof (findUnique_found _ _ _ Hrow) as [_ Hrid].
  rewrite !authenticate_paths, Hh, Ht, Hsplit, String.eqb_refl, Hv, Hsub.
  rewrite Hrow, (approve_found _ _ _ Hrow).
  unfold cleared, identity_of.
  cbn [approved UserRow.role UserRow.isApproved UserRow.id UserRow.email].
  rewrite Hrole, Happ, Hrid. split; [reflexivity |].
  now exists (UserRow.email row).
Qed.

Lemma approval_opens_gate_witness :
  authenticate sample_verifyToken sample_store sample_request
  = reject 403 MSG_PENDING_APPROVAL
  /\ exists e,
       authenticate sample_verifyToken (approve sample_store "u5")
         sample_request
       = Next (set_user sample_request (mkUser "u5" e "influencer")).
Proof.
  apply (approval_opens_gate sample_store (approve sample_store "u5")
           (request_for "Bearer t1" "u5")
           (mkReply 200 true "Influencer approved successfully"
              (Some (UserRow.mk "u5" "ivy@askmi.test" "influencer" true)))
           "u5" sample_verifyToken sample_request "Bearer t5" "t5"
           sample_decoded);
    reflexivity.
Defined.

Lemma find_filter_other (k k' : string) (rows : list UserRow.t) :
  k' <> k ->
  find (fun row => String.eqb (UserRow.id row) k')
    (List.filter (fun row => negb (String.eqb (UserRow.id row) k)) rows)
  = find (fun row => String.eqb (UserRow.id row) k') rows.
Proof.
  intros Hne. induction rows as [| row rows IH]; [reflexivity |].
  cbn [List.filter find].
  destruct (String.eqb_spec (UserRow.id row) k) as [He | Hne'];
    cbn [negb find].
  - rewrite IH.
    assert (H : String.eqb (UserRow.id row) k' = false)
      by (apply String.eqb_neq; congruence).
    now rewrite H.
  - now rewrite IH.
Qed.

Lemma find_filter_same (k : string) (rows : list UserRow.t) :
  find (fun row => String.eqb (UserRow.id row) k)
    (List.filter (fun row => negb (String.eqb (UserRow.id row) k)) rows)
  = None.
Proof.
  induction rows as [| row rows IH]; [reflexivity |].
  cbn [List.filter].
  destruct (String.eqb (UserRow.id row) k) eqn:He; cbn [negb find];
    [exact IH | now rewrite He].
Qed.

(** X28.  Deleting an account revokes its tokens: when the delete handler
    has answered 200 for an id, [authenticate] answers every request
    whose token verifies to this user id with 401, user not found, while
    every other id is found in the store as before. *)
Theorem delete_revokes (prisma prisma' : Prisma) (dreq : Request)
    (reply : Reply) (id : string)
    (verifyToken : string -> option Jwt.Decoded) (req : Request)
    (h token : string) (decoded : Jwt.Decoded) :
  delete_user_handler prisma dreq = (prisma', reply) ->
  reply_status reply = 200 ->
  where_id dreq = Ok id ->
  authorization req = Some h ->
  split " " h = ["Bearer"; token] ->
  verifyToken token = Some decoded ->
  JWTPayload.userId (Jwt.claims decoded) = id ->
  authenticate verifyToken prisma' req = reject 401 MSG_USER_NOT_FOUND
  /\ forall id', id' <> id -> findUnique prisma' id' = findUnique prisma id'.
Proof.
  intros Hrun Hok Hid Hh Hsplit Hv Hsub.
  unfold delete_user_handler in Hrun. rewrite Hid in Hrun.
  cbn [bind] in Hrun.
  destruct (findUnique prisma id) as [[row |] | e] eqn:Hrow;
    cbn [bind try_catch] in Hrun; injection Hrun as <- <-;
    try discriminate Hok.
  assert (Hup : reachable prisma = true).
  { unfold findUnique in Hrow. now destruct (reachable prisma). }
  assert (Ht : truthy_string h = true).
  { destruct h; [discriminate Hsplit | reflexivity]. }
  split.
  - rewrite authenticate_paths, Hh, Ht, Hsplit, String.eqb_refl, Hv, Hsub.
    unfold findUnique, delete_user. cbn [reachable users].
    now rewrite Hup, find_filter_same.
  - intros id' Hne. unfold findUnique, delete_user. cbn [reachable users].
    now rewrite Hup, find_filter_other.
Qed.

Lemma delete_revokes_witness :
  authenticate two_tokens (delete_user sample_store "u1")
    (bearer_request "Bearer t1")
  = reject 401 MSG_USER_NOT_FOUND
  /\ forall id', id' <> "u1" ->
       findUnique (delete_user sample_store "u1") id'
       = findUnique sample_store id'.
Proof.
  apply (delete_revokes sample_store (delete_user sample_store "u1")
           (request_for "Bearer t1" "u1")
           (mkReply 200 true "User deleted successfully" None)
           "u1" two_tokens (bearer_request "Bearer t1") "Bearer t1" "t1"
           admin_decoded);
    reflexivity.
Defined.

(** ** From login to the protected routes *)

(** X29.  A token issued at login opens the protected routes: on a
    [jsonwebtoken] that behaves as documented, the token [generateToken]
    issues for a user, sent as [Bearer <token>] before it expires, makes
    [authenticate] (run with the same service's [verifyToken]) hand the
    request on with the stored identity, provided the token holds no
    space, the store still has the user and the user is not an
    unapproved influencer. *)
Theorem issued_token_authenticates `{jwt : Jwt.Lib} (env : ProcessEnv)
    (u : UserWithoutPassword.t) (issued later d : N) (token : string)
    (prisma : Prisma) (req : Request) (row : UserRow.t) :
  Jwt.Lawful jwt ->
  Jwt.timespan (expiresIn (new_JWTService env)) = Some d ->
  (later < issued + d)%N ->
  generateToken (new_JWTService env) issued u = Ok token ->
  free_of " " token = true ->
  authorization req = Some ("Bearer " +:+ token) ->
  findUnique prisma (UserWithoutPassword.id u) = Ok (Some row) ->
  cleared row = true ->
  authenticate (verifyToken (new_JWTService env) later) prisma req
  = Next (set_user req (identity_of row)).
Proof.
  intros Hlaw Hspan Hfresh Hsign Hfree Hh Hrow Hclear.
  unfold generateToken in Hsign.
  assert (Hv : verifyToken (new_JWTService env) later token
               = Some (Jwt.mkDecoded
                         {| JWTPayload.userId := UserWithoutPassword.id u;
                            JWTPayload.email := UserWithoutPassword.email u;
                            JWTPayload.role := UserWithoutPassword.role u |}
                         issued (issued + d))).
  { unfold verifyToken.
    now rewrite (Jwt.verify_sign jwt Hlaw _ _ _ _ _ _ later
                   (new_JWTService_secret env) Hspan Hsign Hfresh). }
  rewrite authenticate_paths, Hh, (split_bearer token Hfree).
  change (truthy_string ("Bearer " +:+ token)) with true.
  rewrite String.eqb_refl, Hv. cbn [Jwt.claims JWTPayload.userId].
  now rewrite Hrow, Hclear.
Qed.

Lemma issued_token_authenticates_witness :
  authenticate
    (verifyToken (jwt := ToyJwt.lib append)
       (new_JWTService (mkEnv None None)) 2000)
    sample_accounts (bearer_request ("Bearer " +:+ sample_token))
  = Next (set_user (bearer_request ("Bearer " +:+ sample_token)) ann).
Proof.
  apply (issued_token_authenticates (jwt := ToyJwt.lib append)
           (mkEnv None None) sample_user 1000 2000 604800 sample_token
           sample_accounts (bearer_request ("Bearer " +:+ sample_token))
           (UserRow.mk "u7" "ann@askmi.test" "user" false));
    [apply ToyJwtFacts.toy_lawful | reflexivity..].
Defined.
